(** * Marketing campaign processor: aggregation, simulation and controller

    A shallow embedding of [analysis.py], [data_handling.py] and
    [visualization.py].

    Modelling conventions.
    - A pandas [DataFrame] of campaign data is a header (the list of column
      names) and a list of rows.  A row carries one cell per known column;
      a cell is [None] when the value is missing (pandas' NaN / NaT).  A
      column can only be read when its name is in the header: reading an
      absent column raises [KeyError], as pandas does.
    - Integer columns are [Z]; real-valued columns are exact rationals [Q].
      The result of a true division [/] is a [PyFloat]: a finite rational,
      one of the two infinities, or NaN.  Rounding of binary64 arithmetic
      is not part of the model.
    - Python exceptions are values; a computation that may raise returns a
      [Result].  Effects (logging, the file system, matplotlib, the objects
      shared between caller and callee) are threaded through a state. *)

From Stdlib Require Import ZArith QArith String Ascii List Lia Bool.
From Stdlib Require Import Sorting.Sorted.
From Stdlib Require Import Decimal DecimalString DecimalN.
From stdpp Require Import gmap strings list.
From Stdlib Require OrderedTypeEx.

Close Scope Q_scope.
Local Open Scope string_scope.
Local Open Scope list_scope.
Local Open Scope Z_scope.

(** ** Python exceptions and results *)

Inductive ExcClass :=
| ValueError | KeyError | FileNotFoundError | TypeError
| OSError | EmptyDataError | ParserError | UnicodeDecodeError.

(** [exc_arg] is the argument the exception was built with. *)
Record PyExc := mkExc { exc_class : ExcClass; exc_arg : string }.

Definition squote : string := "'".
Definition dquote : string := String (ascii_of_nat 34) EmptyString.

Fixpoint contains (c : ascii) (s : string) : bool :=
  match s with
  | EmptyString => false
  | String c' s' => Ascii.eqb c c' || contains c s'
  end.

(** [repr] of a string without characters that need escaping: single
    quotes, unless the text has a single quote and no double quote. *)
Definition repr (s : string) : string :=
  if contains "'"%char s && negb (contains (ascii_of_nat 34) s)
  then dquote +:+ s +:+ dquote
  else squote +:+ s +:+ squote.

(** [str(e)]: a [KeyError] shows the [repr] of its argument, the other
    classes show the argument itself. *)
Definition str (e : PyExc) : string :=
  match exc_class e with
  | KeyError => repr (exc_arg e)
  | _ => exc_arg e
  end.

Inductive Result (A : Type) :=
| Ok (a : A)
| Raise (e : PyExc).
Arguments Ok {A} a.
Arguments Raise {A} e.

Definition rbind {A B} (r : Result A) (k : A -> Result B) : Result B :=
  match r with
  | Ok a => k a
  | Raise e => Raise e
  end.

Declare Scope result_scope.
Delimit Scope result_scope with result.
Notation "x <- r ;; k" := (rbind r (fun x => k))
  (at level 100, r at next level, right associativity) : result_scope.

(** ** Numbers

    [PyFloat] is the value space of a float64 cell, idealised: a finite
    value is an exact rational. *)

Inductive PyFloat :=
| Fin (q : Q)
| PosInf
| NegInf
| NaN.

(** True division of two integer totals, as numpy evaluates
    [int64 / int64]: a zero divisor never raises; it gives an infinity
    whose sign is the dividend's, and NaN for [0 / 0]. *)
Definition true_divide (a b : Z) : PyFloat :=
  if b =? 0 then
    (if a =? 0 then NaN else if 0 <? a then PosInf else NegInf)
  else Fin (Qdiv (inject_Z a) (inject_Z b)).

Definition is_finite (x : PyFloat) : bool :=
  match x with Fin _ => true | _ => false end.

Definition isnan (x : PyFloat) : bool :=
  match x with NaN => true | _ => false end.

(** [x >= y] on non-NaN floats; a NaN on either side compares false. *)
Definition float_geb (x y : PyFloat) : bool :=
  match x, y with
  | NaN, _ | _, NaN => false
  | PosInf, _ => true
  | _, PosInf => false
  | _, NegInf => true
  | NegInf, _ => false
  | Fin p, Fin q => Qle_bool q p
  end.

(** ** Record collections *)

Inductive DateCell :=
| DateStr (s : string)        (* a date as text, as [read_csv] leaves it *)
| Timestamp (ordinal : Z).    (* a datetime, as a proleptic Gregorian day number *)

Record CampaignRecord := mkRecord {
  Date : option DateCell;
  Campaign : option string;
  Platform : option string;
  Engagement_Rate : option Q;
  Impressions : option Z;
  Clicks : option Z;
  Conversions : option Z;
  Revenue : option Q
}.

Record DataFrame := mkFrame {
  columns : list string;
  rows : list CampaignRecord
}.

(** [pd.DataFrame()] *)
Definition empty_frame : DataFrame := mkFrame [] [].

(** [len(df)] *)
Definition len (df : DataFrame) : nat := length (rows df).

(** [df.empty]: true when either axis has length zero. *)
Definition empty (df : DataFrame) : bool :=
  match columns df, rows df with
  | [], _ | _, [] => true
  | _, _ => false
  end.

Definition has_column (name : string) (df : DataFrame) : bool :=
  bool_decide (name ∈ columns df).

(** Cells of a row outside a given header read as missing. *)
Definition keep {A} (cols : list string) (name : string) (c : option A) : option A :=
  if bool_decide (name ∈ cols) then c else None.

Definition reindex_row (cols : list string) (r : CampaignRecord) : CampaignRecord :=
  {| Date := keep cols "Date" (Date r);
     Campaign := keep cols "Campaign" (Campaign r);
     Platform := keep cols "Platform" (Platform r);
     Engagement_Rate := keep cols "Engagement_Rate" (Engagement_Rate r);
     Impressions := keep cols "Impressions" (Impressions r);
     Clicks := keep cols "Clicks" (Clicks r);
     Conversions := keep cols "Conversions" (Conversions r);
     Revenue := keep cols "Revenue" (Revenue r) |}.

(** Union of headers in order of first appearance. *)
Fixpoint union_columns (acc : list string) (cs : list string) : list string :=
  match cs with
  | [] => acc
  | c :: cs' =>
      if bool_decide (c ∈ acc) then union_columns acc cs'
      else union_columns (acc ++ [c]) cs'
  end.

(** [pd.concat(dataframes, ignore_index=True)]: the header is the union of
    the headers, the rows are stacked, and a cell of a column a frame does
    not have is missing.  An empty list raises [ValueError]. *)
Definition concat (dfs : list DataFrame) : Result DataFrame :=
  match dfs with
  | [] => Raise (mkExc ValueError "No objects to concatenate")
  | _ =>
      Ok {| columns := fold_left union_columns (map columns dfs) [];
            rows := flat_map (fun df => map (reindex_row (columns df)) (rows df)) dfs |}
  end.

(** ** Series, grouping and aggregation

    A [Series] is an index-ordered list of (label, value) pairs. *)

Definition Series (K V : Type) : Type := list (K * V).

Definition index {K V} (s : Series K V) : list K := map fst s.

Section GroupBy.
Context {K : Type} (cmp : K -> K -> comparison).

(** Insertion into an ascending list without duplicates. *)
Fixpoint insert_key (k : K) (ks : list K) : list K :=
  match ks with
  | [] => [k]
  | k' :: ks' =>
      match cmp k k' with
      | Lt => k :: ks
      | Eq => ks
      | Gt => k' :: insert_key k ks'
      end
  end.

(** The group labels of [groupby(key)]: the distinct keys in ascending
    order ([sort=True]); rows whose key is missing form no group
    ([dropna=True]). *)
Definition group_keys (key : CampaignRecord -> option K)
    (rs : list CampaignRecord) : list K :=
  fold_right
    (fun r acc => match key r with Some k => insert_key k acc | None => acc end)
    [] rs.

Definition in_group (key : CampaignRecord -> option K) (k : K)
    (r : CampaignRecord) : bool :=
  match key r with
  | Some k' => match cmp k' k with Eq => true | _ => false end
  | None => false
  end.

(** The rows of one group, in frame order. *)
Definition group (key : CampaignRecord -> option K) (k : K)
    (rs : list CampaignRecord) : list CampaignRecord :=
  List.filter (in_group key k) rs.

(** [groupby(key)[col].agg()]: one entry per group label. *)
Definition groupby_agg {V} (key : CampaignRecord -> option K)
    (agg : list CampaignRecord -> V) (rs : list CampaignRecord) : Series K V :=
  map (fun k => (k, agg (group key k rs))) (group_keys key rs).

(** Label lookup in a series. *)
Fixpoint series_get {V} (k : K) (s : Series K V) : option V :=
  match s with
  | [] => None
  | (k', v) :: s' =>
      match cmp k k' with Eq => Some v | _ => series_get k s' end
  end.

(** [s1 / s2] on integer series: values are aligned on the label; a
    label present on one side only gives NaN. *)
Definition series_div (s1 s2 : Series K Z) : Series K PyFloat :=
  map (fun '(k, a) =>
         (k, match series_get k s2 with
             | Some b => true_divide a b
             | None => NaN
             end)) s1
  ++ map (fun '(k, _) => (k, NaN))
       (List.filter (fun '(k, _) =>
          match series_get k s1 with Some _ => false | None => true end) s2).
End GroupBy.

(** [sum()] of a column over a group; missing cells are skipped, an empty
    sum is zero. *)
Definition sum_Z (col : CampaignRecord -> option Z) (rs : list CampaignRecord) : Z :=
  fold_left (fun acc r => match col r with Some v => acc + v | None => acc end) rs 0.

Definition sum_Q (col : CampaignRecord -> option Q) (rs : list CampaignRecord) : Q :=
  fold_left (fun acc r => match col r with Some v => Qplus acc v | None => acc end)
    rs (0 # 1)%Q.

Definition count {A} (col : CampaignRecord -> option A) (rs : list CampaignRecord) : Z :=
  fold_left (fun acc r => match col r with Some _ => acc + 1 | None => acc end) rs 0.

(** [mean()] of a column over a group; missing cells are skipped, the mean
    of no value is NaN. *)
Definition mean_Q (col : CampaignRecord -> option Q) (rs : list CampaignRecord) : PyFloat :=
  let n := count col rs in
  if n =? 0 then NaN else Fin (Qdiv (sum_Q col rs) (inject_Z n)).

Section SortValues.
Context {K V : Type} (geb : V -> V -> bool) (isna : V -> bool).

Fixpoint insert_desc (x : K * V) (l : Series K V) : Series K V :=
  match l with
  | [] => [x]
  | y :: l' => if geb (snd x) (snd y) then x :: l else y :: insert_desc x l'
  end.

(** [sort_values(ascending=False)]: non-increasing values, NaN entries
    last ([na_position='last']).  Entries with equal values keep their
    index order here; pandas' default sort does not promise an order
    among them. *)
Definition sort_values_desc (s : Series K V) : Series K V :=
  fold_right insert_desc [] (List.filter (fun x => negb (isna (snd x))) s)
  ++ List.filter (fun x => isna (snd x)) s.

(** The order of two neighbours after sorting. *)
Definition desc (a b : K * V) : Prop := geb (snd a) (snd b) = true.
End SortValues.

Definition Q_geb (x y : Q) : bool := Qle_bool y x.

Definition date_compare (a b : DateCell) : comparison :=
  match a, b with
  | Timestamp x, Timestamp y => Z.compare x y
  | Timestamp _, DateStr _ => Lt
  | DateStr _, Timestamp _ => Gt
  | DateStr x, DateStr y => String.compare x y
  end.

Definition pair_compare {A B} (ca : A -> A -> comparison) (cb : B -> B -> comparison)
    (x y : A * B) : comparison :=
  match ca (fst x) (fst y) with
  | Eq => cb (snd x) (snd y)
  | c => c
  end.

(** ** [analysis.DataAnalyzer] *)

(** Selecting a grouping key that the header lacks: [KeyError(name)]. *)
Definition require_key (name : string) (df : DataFrame) : Result unit :=
  if has_column name df then Ok tt
  else Raise (mkExc KeyError name).

(** Selecting a value column that the header lacks. *)
Definition require_column (name : string) (df : DataFrame) : Result unit :=
  if has_column name df then Ok tt
  else Raise (mkExc KeyError ("Column not found: " +:+ name)).

Definition groupby_column {V} (df : DataFrame)
    (keyname : string) (key : CampaignRecord -> option string)
    (colname : string) (agg : list CampaignRecord -> V) : Result (Series string V) :=
  (_ <- require_key keyname df ;;
   _ <- require_column colname df ;;
   Ok (groupby_agg String.compare key agg (rows df)))%result.

(** The dictionary returned by [analyze_campaign_performance]. *)
Record PerformanceData := mkPerformance {
  revenue : Series string Q;
  ctr : Series string PyFloat;
  conversion_rate : Series string PyFloat;
  engagement_by_platform : Series string PyFloat;
  impressions_by_platform : Series string Z
}.

Definition required_columns : gset string :=
  {[ "Campaign"; "Revenue"; "Platform"; "Impressions"; "Clicks";
     "Conversions"; "Engagement_Rate" ]}.

Definition missing_columns (df : DataFrame) : gset string :=
  required_columns ∖ list_to_set (columns df).

(** The text of the error: the names are joined in the iteration order of
    the set, which Python leaves unspecified. *)
Definition missing_message (names : list string) : string :=
  "🚫 Missing required columns: " +:+ String.concat ", " names.

Definition analyze_campaign_performance (df : DataFrame) : Result PerformanceData :=
  if negb (bool_decide (required_columns ⊆ list_to_set (columns df))) then
    Raise (mkExc ValueError (missing_message (elements (missing_columns df))))
  else
    (rev <- groupby_column df "Campaign" Campaign "Revenue" (sum_Q Revenue) ;;
     clicks <- groupby_column df "Campaign" Campaign "Clicks" (sum_Z Clicks) ;;
     impressions <- groupby_column df "Campaign" Campaign "Impressions" (sum_Z Impressions) ;;
     conversions <- groupby_column df "Campaign" Campaign "Conversions" (sum_Z Conversions) ;;
     clicks' <- groupby_column df "Campaign" Campaign "Clicks" (sum_Z Clicks) ;;
     engagement <- groupby_column df "Platform" Platform "Engagement_Rate" (mean_Q Engagement_Rate) ;;
     impressions' <- groupby_column df "Platform" Platform "Impressions" (sum_Z Impressions) ;;
     Ok {| revenue := sort_values_desc Q_geb (fun _ => false) rev;
           ctr := sort_values_desc float_geb isnan
                    (series_div String.compare clicks impressions);
           conversion_rate := sort_values_desc float_geb isnan
                    (series_div String.compare conversions clicks');
           engagement_by_platform := engagement;
           impressions_by_platform := impressions' |})%result.

(** The frame returned by [analyze_platform_performance]: one row per
    (date, platform) group.  As for the input frame, a column is readable
    only when the header names it. *)
Module Daily.
Record Row := mkRow {
  Date : DateCell;
  Platform : string;
  Engagement_Rate : PyFloat;
  Impressions : Z;
  Clicks : Z;
  Conversions : Z;
  CTR : PyFloat;
  Conversion_Rate : PyFloat
}.

Record Frame := mkFrame {
  columns : list string;
  rows : list Row
}.

Definition has_column (name : string) (df : Frame) : bool :=
  bool_decide (name ∈ columns df).

(** [df[name]] for reading. *)
Definition getitem (name : string) (df : Frame) : Result unit :=
  if has_column name df then Ok tt
  else Raise (mkExc KeyError name).

(** [df[name] = values]: an existing column is replaced in place, a new
    one is appended to the header. *)
Definition setitem (name : string) (upd : Row -> Row) (df : Frame) : Frame :=
  {| columns := if has_column name df then columns df else columns df ++ [name];
     rows := map upd (rows df) |}.

Definition set_CTR (v : Row -> PyFloat) (r : Row) : Row :=
  mkRow (Date r) (Platform r) (Engagement_Rate r) (Impressions r) (Clicks r)
    (Conversions r) (v r) (Conversion_Rate r).

Definition set_Conversion_Rate (v : Row -> PyFloat) (r : Row) : Row :=
  mkRow (Date r) (Platform r) (Engagement_Rate r) (Impressions r) (Clicks r)
    (Conversions r) (CTR r) (v r).

Definition set_Date (v : Row -> DateCell) (r : Row) : Row :=
  mkRow (v r) (Platform r) (Engagement_Rate r) (Impressions r) (Clicks r)
    (Conversions r) (CTR r) (Conversion_Rate r).
End Daily.

Definition date_platform (r : CampaignRecord) : option (DateCell * string) :=
  match Date r, Platform r with
  | Some d, Some p => Some (d, p)
  | _, _ => None
  end.

Definition date_platform_compare : DateCell * string -> DateCell * string -> comparison :=
  pair_compare date_compare String.compare.

(** [agg] over a dictionary of columns: the ones the header lacks are
    reported together. *)
Definition agg_columns : list string :=
  ["Engagement_Rate"; "Impressions"; "Clicks"; "Conversions"].

Definition quote_list (names : list string) : string :=
  "[" +:+ String.concat ", " (map (fun n => "'" +:+ n +:+ "'") names) +:+ "]".

Definition require_agg_columns (df : DataFrame) : Result unit :=
  match List.filter (fun n => negb (has_column n df)) agg_columns with
  | [] => Ok tt
  | absent => Raise (mkExc KeyError
                       ("Column(s) " +:+ quote_list absent +:+ " do not exist"))
  end.

Definition daily_agg (rs : list CampaignRecord) : list Daily.Row :=
  map (fun '(k, g) =>
         Daily.mkRow (fst k) (snd k)
           (mean_Q Engagement_Rate g) (sum_Z Impressions g)
           (sum_Z Clicks g) (sum_Z Conversions g) NaN NaN)
      (groupby_agg date_platform_compare date_platform (fun g => g) rs).

Definition analyze_platform_performance (df : DataFrame) : Result Daily.Frame :=
  (_ <- require_key "Date" df ;;
   _ <- require_key "Platform" df ;;
   _ <- require_agg_columns df ;;
   let daily_metrics :=
     {| Daily.columns := ["Date"; "Platform"; "Engagement_Rate"; "Impressions";
                          "Clicks"; "Conversions"];
        Daily.rows := daily_agg (rows df) |} in
   _ <- Daily.getitem "Clicks" daily_metrics ;;
   _ <- Daily.getitem "Impressions" daily_metrics ;;
   let daily_metrics :=
     Daily.setitem "CTR"
       (Daily.set_CTR (fun r => true_divide (Daily.Clicks r) (Daily.Impressions r)))
       daily_metrics in
   _ <- Daily.getitem "Conversions" daily_metrics ;;
   _ <- Daily.getitem "Clicks" daily_metrics ;;
   let daily_metrics :=
     Daily.setitem "Conversion_Rate"
       (Daily.set_Conversion_Rate
          (fun r => true_divide (Daily.Conversions r) (Daily.Clicks r)))
       daily_metrics in
   Ok daily_metrics)%result.

(** ** [data_handling.DataSimulator] *)

(** The generator of the [random] module: an endless sequence of draws and
    a cursor into it.  Every call of the module takes the next draw. *)
Record RandomState := mkRandom {
  draws : nat -> N;
  cursor : nat
}.

Definition Rand (A : Type) : Type := RandomState -> A * RandomState.

Definition ret {A} (a : A) : Rand A := fun st => (a, st).

Definition bind {A B} (m : Rand A) (k : A -> Rand B) : Rand B :=
  fun st => let '(a, st') := m st in k a st'.

Declare Scope rand_scope.
Delimit Scope rand_scope with rand.
Notation "x <- m ;; k" := (bind m (fun x => k))
  (at level 100, m at next level, right associativity) : rand_scope.

Definition next_draw : Rand N :=
  fun st => (draws st (cursor st), mkRandom (draws st) (S (cursor st))).

(** [random.choice(seq)] on a non-empty sequence. *)
Definition choice (seq : list string) : Rand string :=
  (n <- next_draw ;;
   ret (nth (N.to_nat (n mod N.of_nat (length seq))) seq ""))%rand.

(** [random.randint(a, b)]: an integer of [a..b], both ends included. *)
Definition randint (a b : Z) : Rand Z :=
  (n <- next_draw ;; ret (a + Z.of_N n mod (b - a + 1)))%rand.

(** [random.uniform(a, b)]: [a + (b - a) * random()], with [random()] a
    multiple of 2^-53 in [0, 1). *)
Definition uniform (a b : Q) : Rand Q :=
  (n <- next_draw ;;
   ret (a + (b - a) * (Z.of_N (n mod 2 ^ 53) # 2 ^ 53))%Q)%rand.

(** A loop that collects one value per element. *)
Fixpoint for_each {A B} (f : A -> Rand B) (l : list A) : Rand (list B) :=
  match l with
  | [] => ret []
  | x :: l' => (b <- f x ;; bs <- for_each f l' ;; ret (b :: bs))%rand
  end.

(** [range(lo, hi)] *)
Definition range (lo hi : Z) : list Z :=
  map (fun k => lo + Z.of_nat k) (seq 0 (Z.to_nat (hi - lo))).

Definition decimal (n : N) : string := NilEmpty.string_of_uint (N.to_uint n).

Fixpoint zeros (k : nat) : string :=
  match k with
  | O => ""
  | S k' => String "0" (zeros k')
  end.

Definition zero_pad (width : nat) (s : string) : string :=
  zeros (width - String.length s) +:+ s.

(** The format [{i:03d}]: decimal digits, padded with zeros on the left to
    three characters, the sign included. *)
Definition format_03d (i : Z) : string :=
  if i <? 0 then "-" +:+ zero_pad 2 (decimal (Z.to_N (- i)))
  else zero_pad 3 (decimal (Z.to_N i)).

Definition adjectives : list string :=
  ["Bold"; "Smart"; "Vibrant"; "Sleek"; "Dynamic"; "Innovative"; "Stellar";
   "Radiant"; "Agile"; "Zen"].

Definition nouns : list string :=
  ["Vision"; "Quest"; "Journey"; "Horizon"; "Leap"; "Spark"; "Wave"; "Pulse";
   "Orbit"; "Nexus"].

Definition campaign_name (adjective noun : string) (i : Z) : string :=
  adjective +:+ " " +:+ noun +:+ " " +:+ format_03d i.

Definition generate_campaign_names (num_campaigns : Z) : Rand (list string) :=
  for_each
    (fun i => (a <- choice adjectives ;; n <- choice nouns ;;
               ret (campaign_name a n i))%rand)
    (range 1 (num_campaigns + 1)).

Definition platforms : list string := ["Facebook"; "Instagram"].

(** [datetime(2024, 1, 1)] as a day number. *)
Definition start_date : Z := 738886.

Definition simulated_record (campaign platform : string) (day : Z) : Rand CampaignRecord :=
  (let date := start_date + day in
   engagement <- uniform (1 # 100) (15 # 100) ;;
   impressions <- randint 10000 1000000 ;;
   clicks <- randint 100 10000 ;;
   conversions <- randint 10 1000 ;;
   revenue <- uniform (1000 # 1) (10000 # 1) ;;
   ret {| Date := Some (Timestamp date);
          Campaign := Some campaign;
          Platform := Some platform;
          Engagement_Rate := Some engagement;
          Impressions := Some impressions;
          Clicks := Some clicks;
          Conversions := Some conversions;
          Revenue := Some revenue |})%rand.

(** [pd.DataFrame(data)] on a list of dictionaries with the same keys: the
    header is the key order of the dictionaries; no dictionary, no column. *)
Definition frame_of_records (data : list CampaignRecord) : DataFrame :=
  match data with
  | [] => empty_frame
  | _ => {| columns := ["Date"; "Campaign"; "Platform"; "Engagement_Rate";
                        "Impressions"; "Clicks"; "Conversions"; "Revenue"];
            rows := data |}
  end.

Definition generate_simulated_data (num_campaigns num_days : Z) : Rand DataFrame :=
  (campaigns <- generate_campaign_names num_campaigns ;;
   data <- for_each
             (fun campaign =>
                for_each
                  (fun platform =>
                     for_each (fun day => simulated_record campaign platform day)
                       (range 0 num_days))
                  platforms)
             campaigns ;;
   ret (frame_of_records (List.concat (List.concat data))))%rand.

(** ** Effects: the file system, matplotlib, the log and shared objects *)

Definition Path : Type := string.

(** [folder / name] *)
Definition path_join (folder : Path) (name : string) : Path :=
  folder +:+ "/" +:+ name.

(** What the program finds outside itself. *)
Record World := mkWorld {
  glob_csv : Path -> list Path;          (* [folder.glob('*.csv')] *)
  read_csv : Path -> Result DataFrame;   (* [pd.read_csv(path)] *)
  parse_datetime : string -> option Z;   (* the date parser of [pd.to_datetime] *)
  mkdir : Path -> Result unit;           (* [mkdir(parents=True, exist_ok=True)] *)
  savefig : Path -> Result unit          (* [plt.savefig(path, ...)] *)
}.

Inductive Drawing :=
| BarPlot (labels : list string) (heights : list Q)
| BarText (position : nat) (height : Q)
| Scatter (xs ys : Series string PyFloat)
| Annotate (label : string) (x y : PyFloat)
| Line (label : string) (xs : list DateCell) (ys : list PyFloat).

Inductive Event :=
| LogError (text : string)
| LogInfo (text : string)
| LogCampaign (campaign : string) (total : Q)   (* the line of one top campaign *)
| Call (function : string)
| Draw (d : Drawing)
| Saved (path : Path).

Definition loc : Type := nat.

(** The objects that are handed from the controller to the charts. *)
Inductive PyObject :=
| PerformanceDict (p : PerformanceData)
| DailyFrame (df : Daily.Frame).

Record State := mkState {
  heap : gmap loc PyObject;
  next_loc : loc;
  trace : list Event
}.

Definition M (A : Type) : Type := State -> Result A * State.

Definition mret {A} (a : A) : M A := fun st => (Ok a, st).

Definition mbind {A B} (m : M A) (k : A -> M B) : M B :=
  fun st => match m st with
            | (Ok a, st') => k a st'
            | (Raise e, st') => (Raise e, st')
            end.

Declare Scope py_scope.
Delimit Scope py_scope with py.
Notation "x <- m ;; k" := (mbind m (fun x => k))
  (at level 100, m at next level, right associativity) : py_scope.
Notation "m ;;; k" := (mbind m (fun _ => k))
  (at level 100, right associativity) : py_scope.

Definition raise {A} (e : PyExc) : M A := fun st => (Raise e, st).

Definition lift {A} (r : Result A) : M A := fun st => (r, st).

Definition emit (ev : Event) : M unit :=
  fun st => (Ok tt, mkState (heap st) (next_loc st) (trace st ++ [ev])).

(** [try: body except Exception as e: handler(e)] *)
Definition try_except {A} (body : M A) (handler : PyExc -> M A) : M A :=
  fun st => match body st with
            | (Ok a, st') => (Ok a, st')
            | (Raise e, st') => handler e st'
            end.

Definition alloc (o : PyObject) : M loc :=
  fun st => (Ok (next_loc st),
             mkState (<[next_loc st := o]> (heap st)) (S (next_loc st)) (trace st)).

Definition load (ref : loc) : M PyObject :=
  fun st => match heap st !! ref with
            | Some o => (Ok o, st)
            | None => (Raise (mkExc TypeError "no such object"), st)
            end.

Definition store (ref : loc) (o : PyObject) : M unit :=
  fun st => (Ok tt, mkState (<[ref := o]> (heap st)) (next_loc st) (trace st)).

Definition load_performance (ref : loc) : M PerformanceData :=
  (o <- load ref ;;
   match o with
   | PerformanceDict p => mret p
   | DailyFrame _ => raise (mkExc KeyError "revenue")
   end)%py.

Definition load_daily (ref : loc) : M Daily.Frame :=
  (o <- load ref ;;
   match o with
   | DailyFrame df => mret df
   | PerformanceDict _ => raise (mkExc KeyError "Date")
   end)%py.

Fixpoint mfor {A} (f : A -> M unit) (l : list A) : M unit :=
  match l with
  | [] => mret tt
  | x :: l' => (f x ;;; mfor f l')%py
  end.

Fixpoint mmap {A B} (f : A -> M B) (l : list A) : M (list B) :=
  match l with
  | [] => mret []
  | x :: l' => (b <- f x ;; bs <- mmap f l' ;; mret (b :: bs))%py
  end.

(** ** [data_handling.CSVDataLoader] *)

Definition load_data (w : World) (file_path : Path) : M DataFrame :=
  try_except
    (lift (read_csv w file_path))
    (fun e =>
       (emit (LogError ("🚨 Transmission interrupted. Error decoding file "
                        +:+ file_path +:+ ": " +:+ str e)) ;;;
        mret empty_frame)%py).

(** ** [visualization.ChartCreator] *)

Definition _create_revenue_bar_chart (w : World) (revenue_data : Series string Q)
    (output_path : Path) : M unit :=
  (emit (Draw (BarPlot (index revenue_data) (map snd revenue_data))) ;;;
   mfor (fun '(i, v) => emit (Draw (BarText i v)))
        (combine (seq 0 (length revenue_data)) (map snd revenue_data)) ;;;
   lift (savefig w output_path) ;;;
   emit (Saved output_path) ;;;
   emit (LogInfo ("💾 Revenue chart saved as " +:+ output_path)))%py.

(** [s.nlargest(n)]: the [n] largest entries that are not NaN. *)
Definition nlargest (n : nat) (s : Series string PyFloat) : Series string PyFloat :=
  firstn n (fold_right (insert_desc float_geb) []
              (List.filter (fun x => negb (isnan (snd x))) s)).

(** [s[label]] *)
Definition series_getitem {V} (label : string) (s : Series string V) : Result V :=
  match series_get String.compare label s with
  | Some v => Ok v
  | None => Raise (mkExc KeyError label)
  end.

Definition _create_ctr_conversion_scatter (w : World)
    (ctr_data conversion_rate_data : Series string PyFloat) (output_path : Path) : M unit :=
  (emit (Draw (Scatter ctr_data conversion_rate_data)) ;;;
   mfor (fun '(campaign, ctr) =>
           (conversion_rate <- lift (series_getitem campaign conversion_rate_data) ;;
            emit (Draw (Annotate campaign ctr conversion_rate)))%py)
        (nlargest 10 ctr_data) ;;;
   lift (savefig w output_path) ;;;
   emit (Saved output_path) ;;;
   emit (LogInfo ("💾 CTR vs Conversion chart saved as " +:+ output_path)))%py.

Definition create_performance_charts (w : World) (performance_data : loc)
    (output_folder : Path) : M unit :=
  (emit (Call "create_performance_charts") ;;;
   emit (Call "set_style") ;;;
   p <- load_performance performance_data ;;
   _create_revenue_bar_chart w (revenue p)
     (path_join output_folder "revenue_performance.png") ;;;
   p' <- load_performance performance_data ;;
   _create_ctr_conversion_scatter w (ctr p') (conversion_rate p')
     (path_join output_folder "ctr_vs_conversion.png"))%py.

(** [pd.to_datetime] on one cell: text is parsed, a datetime is kept. *)
Definition to_datetime (w : World) (d : DateCell) : Result DateCell :=
  match d with
  | Timestamp t => Ok (Timestamp t)
  | DateStr s =>
      match parse_datetime w s with
      | Some t => Ok (Timestamp t)
      | None => Raise (mkExc ValueError
                         ("Unknown datetime string format, unable to parse: " +:+ s))
      end
  end.

Fixpoint to_datetime_column (w : World) (rs : list Daily.Row) : Result (list DateCell) :=
  match rs with
  | [] => Ok []
  | r :: rs' =>
      (d <- to_datetime w (Daily.Date r) ;;
       ds <- to_datetime_column w rs' ;;
       Ok (d :: ds))%result
  end.

(** Replacing the Date cells of the rows by the cells of a column of the
    same length. *)
Fixpoint assign_dates (rs : list Daily.Row) (ds : list DateCell) : list Daily.Row :=
  match rs, ds with
  | r :: rs', d :: ds' => Daily.set_Date (fun _ => d) r :: assign_dates rs' ds'
  | _, _ => rs
  end.

(** [df['Platform'].unique()]: the values in order of first appearance. *)
Fixpoint unique (l : list string) : list string :=
  match l with
  | [] => []
  | x :: l' => x :: List.filter (fun y => negb (String.eqb x y)) (unique l')
  end.

Definition metric_column (metric : string) (r : Daily.Row) : PyFloat :=
  if String.eqb metric "Engagement_Rate" then Daily.Engagement_Rate r
  else if String.eqb metric "CTR" then Daily.CTR r
  else Daily.Conversion_Rate r.

(** The first statement of [create_platform_comparison]:
    [performance_data['Date'] = pd.to_datetime(performance_data['Date'])].
    The column is assigned on the frame the caller passed. *)
Definition convert_dates (w : World) (performance_data : loc) : M unit :=
  (df <- load_daily performance_data ;;
   lift (Daily.getitem "Date" df) ;;;
   dates <- lift (to_datetime_column w (Daily.rows df)) ;;
   store performance_data
     (DailyFrame {| Daily.columns := Daily.columns df;
                    Daily.rows := assign_dates (Daily.rows df) dates |}))%py.

(** The rest of [create_platform_comparison]: one panel per metric, one
    line per platform, then the file is written. *)
Definition plot_platform_lines (w : World) (performance_data : loc)
    (output_path : Path) : M unit :=
  (mfor (fun metric =>
           (df <- load_daily performance_data ;;
            lift (Daily.getitem "Platform" df) ;;;
            mfor (fun platform =>
                    (df <- load_daily performance_data ;;
                     let platform_data :=
                       List.filter (fun r => String.eqb (Daily.Platform r) platform)
                         (Daily.rows df) in
                     lift (Daily.getitem "Date" df) ;;;
                     lift (Daily.getitem metric df) ;;;
                     emit (Draw (Line (platform +:+ " " +:+ metric)
                                   (map Daily.Date platform_data)
                                   (map (metric_column metric) platform_data))))%py)
                 (unique (map Daily.Platform (Daily.rows df))))%py)
        ["Engagement_Rate"; "CTR"; "Conversion_Rate"] ;;;
   lift (savefig w output_path) ;;;
   emit (Saved output_path) ;;;
   emit (LogInfo ("💾 Platform comparison chart saved as " +:+ output_path)))%py.

Definition create_platform_comparison (w : World) (performance_data : loc)
    (output_path : Path) : M unit :=
  (emit (Call "create_platform_comparison") ;;;
   convert_dates w performance_data ;;;
   plot_platform_lines w performance_data output_path)%py.

(** ** [analysis.MarketingAnalyzer] *)

Record AnalysisConfig := mkConfig {
  data_folder : Path;
  output_folder : Path;
  is_dry_run : bool
}.

Definition _load_all_data (w : World) (config : AnalysisConfig) : M DataFrame :=
  (let data_files := glob_csv w (data_folder config) in
   match data_files with
   | [] => raise (mkExc FileNotFoundError
                    ("🚫 No CSV files found in " +:+ data_folder config))
   | _ =>
       dataframes <- mmap (load_data w) data_files ;;
       lift (concat dataframes)
   end)%py.

Definition _create_output_folder (w : World) (config : AnalysisConfig) : M unit :=
  lift (mkdir w (output_folder config)).

Definition _print_top_campaigns (revenue_data : Series string Q) (top_n : nat) : M unit :=
  (emit (LogInfo ("🥇 Top " +:+ decimal (N.of_nat top_n) +:+ " Campaigns by Revenue:")) ;;;
   mfor (fun '(campaign, revenue) => emit (LogCampaign campaign revenue))
        (firstn top_n revenue_data))%py.

Definition no_data_error : PyExc :=
  mkExc ValueError "🕳️ Our intelligence network came up empty. Abort mission.".

Definition run_analysis (w : World) (config : AnalysisConfig) : M unit :=
  try_except
    (all_data <- _load_all_data w config ;;
     (if empty all_data then raise no_data_error else mret tt) ;;;
     emit (Call "analyze_campaign_performance") ;;;
     p <- lift (analyze_campaign_performance all_data) ;;
     performance_data <- alloc (PerformanceDict p) ;;
     emit (Call "analyze_platform_performance") ;;;
     d <- lift (analyze_platform_performance all_data) ;;
     platform_performance <- alloc (DailyFrame d) ;;
     _create_output_folder w config ;;;
     create_performance_charts w performance_data (output_folder config) ;;;
     create_platform_comparison w platform_performance
       (path_join (output_folder config) "platform_comparison.png") ;;;
     p' <- load_performance performance_data ;;
     _print_top_campaigns (revenue p') 3)%py
    (fun e =>
       (emit (LogError ("🌑 The dark side clouds everything. Analysis failed: "
                        +:+ str e)) ;;;
        raise e)%py).

(** ** Notions and sample inputs used in the statements *)

(** The frame of [tests/test_all.py]: campaigns A and B alternate over ten
    consecutive days. *)
Definition test_row (i : Z) : CampaignRecord :=
  if Z.even i then
    mkRecord (Some (Timestamp (738521 + i))) (Some "A") (Some "Facebook")
      (Some (5 # 100)%Q) (Some 1000) (Some 50) (Some 5) (Some (100 # 1)%Q)
  else
    mkRecord (Some (Timestamp (738521 + i))) (Some "B") (Some "Instagram")
      (Some (1 # 10)%Q) (Some 2000) (Some 100) (Some 10) (Some (200 # 1)%Q).

Definition test_dataframe : DataFrame :=
  {| columns := ["Date"; "Campaign"; "Revenue"; "Platform"; "Impressions";
                 "Clicks"; "Conversions"; "Engagement_Rate"];
     rows := map test_row [0; 1; 2; 3; 4; 5; 6; 7; 8; 9] |}.

(** The rows of a collection whose key equals [k]: the group named in
    the statements below. *)
Definition records_where {K} `{EqDecision K} (key : CampaignRecord -> option K)
    (k : K) (rs : list CampaignRecord) : list CampaignRecord :=
  List.filter (fun r => bool_decide (key r = Some k)) rs.

#[global] Instance DateCell_eq_dec : EqDecision DateCell.
Proof. solve_decision. Defined.

Definition has_required_columns (df : DataFrame) : Prop :=
  required_columns ⊆ list_to_set (columns df).

(** The per-campaign ratio series before sorting. *)
Definition campaign_ratio (num den : CampaignRecord -> option Z)
    (rs : list CampaignRecord) : Series string PyFloat :=
  map (fun c => (c, true_divide (sum_Z num (group String.compare Campaign c rs))
                                (sum_Z den (group String.compare Campaign c rs))))
      (group_keys String.compare Campaign rs).

Definition daily_header : list string :=
  ["Date"; "Platform"; "Engagement_Rate"; "Impressions"; "Clicks"; "Conversions";
   "CTR"; "Conversion_Rate"].

(** One row of the daily frame, from the rows of its group. *)
Definition daily_row (k : DateCell * string) (g : list CampaignRecord) : Daily.Row :=
  Daily.mkRow (fst k) (snd k) (mean_Q Engagement_Rate g) (sum_Z Impressions g)
    (sum_Z Clicks g) (sum_Z Conversions g)
    (true_divide (sum_Z Clicks g) (sum_Z Impressions g))
    (true_divide (sum_Z Conversions g) (sum_Z Clicks g)).

Definition daily_columns_present (df : DataFrame) : Prop :=
  forall n, n ∈ ["Date"; "Platform"; "Engagement_Rate"; "Impressions"; "Clicks";
                 "Conversions"] -> n ∈ columns df.

(** The mean of the row-wise ratios of a group: the quantity a
    division-before-aggregation would report. *)
Definition mean_of_row_ratios (num den : CampaignRecord -> option Z)
    (rs : list CampaignRecord) : PyFloat :=
  mean_Q (fun r => match num r, den r with
                   | Some n, Some d =>
                       if d =? 0 then None else Some (Qdiv (inject_Z n) (inject_Z d))
                   | _, _ => None
                   end) rs.

Definition uneven_frame : DataFrame :=
  {| columns := ["Date"; "Campaign"; "Revenue"; "Platform"; "Impressions";
                 "Clicks"; "Conversions"; "Engagement_Rate"];
     rows :=
       [ mkRecord (Some (DateStr "2024-01-01")) (Some "A") (Some "Facebook")
           (Some (5 # 100)%Q) (Some 10) (Some 1) (Some 1) (Some (100 # 1)%Q);
         mkRecord (Some (DateStr "2024-01-01")) (Some "A") (Some "Facebook")
           (Some (5 # 100)%Q) (Some 2) (Some 1) (Some 0) (Some (100 # 1)%Q) ] |}.

Definition test_performance : PerformanceData :=
  {| revenue := [("B", 1000 # 1); ("A", 500 # 1)]%Q;
     ctr := [("A", Fin (250 # 5000)); ("B", Fin (500 # 10000))];
     conversion_rate := [("A", Fin (25 # 250)); ("B", Fin (50 # 500))];
     engagement_by_platform :=
       [("Facebook", Fin (2500000000 # 50000000000)); ("Instagram", Fin (50000 # 500000))];
     impressions_by_platform := [("Facebook", 5000); ("Instagram", 10000)] |}.

(** Non-increasing order on the entries of a revenue series. *)
Definition revenue_desc (a b : string * Q) : Prop := (snd b <= snd a)%Q.

(** What a division by a zero total yields, by the sign of the dividend. *)
Definition undefined_ratio (a : Z) : PyFloat :=
  if a =? 0 then NaN else if 0 <? a then PosInf else NegInf.

Definition zero_clicks_frame : DataFrame :=
  {| columns := ["Date"; "Campaign"; "Revenue"; "Platform"; "Impressions";
                 "Clicks"; "Conversions"; "Engagement_Rate"];
     rows :=
       [ mkRecord (Some (DateStr "2024-01-01")) (Some "A") (Some "Facebook")
           (Some (5 # 100)%Q) (Some 0) (Some 0) (Some 0) (Some (100 # 1)%Q);
         mkRecord (Some (DateStr "2024-01-02")) (Some "B") (Some "Facebook")
           (Some (5 # 100)%Q) (Some 0) (Some 7) (Some 1) (Some (100 # 1)%Q) ] |}.

Definition record_fields : list string :=
  ["Date"; "Campaign"; "Platform"; "Impressions"; "Clicks"; "Conversions";
   "Revenue"; "Engagement_Rate"].

(** A frame with every record field but Date. *)
Definition frame_without_date : DataFrame :=
  {| columns := ["Campaign"; "Platform"; "Impressions"; "Clicks"; "Conversions";
                 "Revenue"; "Engagement_Rate"];
     rows :=
       [ mkRecord None (Some "A") (Some "Facebook")
           (Some (5 # 100)%Q) (Some 1000) (Some 50) (Some 5) (Some (100 # 1)%Q) ] |}.

Definition frame_with_two_columns : DataFrame :=
  {| columns := ["Date"; "Campaign"; "Revenue"; "Region"];
     rows := [] |}.

Definition seed0 : RandomState := mkRandom (fun k => N.of_nat (7 * k + 3)) 0.

(** Reading a campaign name back: the text after the last space, as a
    decimal number. *)
Fixpoint last_token_from (acc s : string) : string :=
  match s with
  | EmptyString => acc
  | String c s' =>
      if Ascii.eqb c " " then last_token_from "" s'
      else last_token_from (acc +:+ String c "") s'
  end.

Definition last_token (s : string) : string := last_token_from "" s.

Definition campaign_number (name : string) : option N :=
  option_map N.of_uint (NilEmpty.uint_of_string (last_token name)).

(** The records generated for one campaign: one list per platform, one
    record per day, each carrying the campaign's name. *)
Definition campaign_block (num_days : Z) (campaign : string)
    (block : list (list CampaignRecord)) : Prop :=
  length block = 2%nat /\
  Forall (fun days => length days = Z.to_nat num_days /\
                      Forall (fun r => Campaign r = Some campaign) days) block.

Definition initial_state : State := mkState ∅ 0%nat [].

(** The calls of the aggregation engine recorded in a trace. *)
Definition is_aggregation_call (ev : Event) : bool :=
  match ev with
  | Call f => String.eqb f "analyze_campaign_performance"
              || String.eqb f "analyze_platform_performance"
  | _ => false
  end.

Definition aggregation_calls (t : list Event) : list Event :=
  List.filter is_aggregation_call t.

(** A world with one file of two records, dates as text. *)
Definition csv_frame : DataFrame :=
  {| columns := ["Date"; "Campaign"; "Platform"; "Engagement_Rate"; "Impressions";
                 "Clicks"; "Conversions"; "Revenue"];
     rows :=
       [ mkRecord (Some (DateStr "2024-01-01")) (Some "Bold Quest 001") (Some "Facebook")
           (Some (5 # 100)%Q) (Some 20000) (Some 500) (Some 50) (Some (1500 # 1)%Q);
         mkRecord (Some (DateStr "2024-01-01")) (Some "Bold Quest 001") (Some "Instagram")
           (Some (7 # 100)%Q) (Some 30000) (Some 900) (Some 30) (Some (2500 # 1)%Q) ] |}.

Definition sample_world : World :=
  {| glob_csv := fun folder =>
       if String.eqb folder "simulated_data"
       then ["simulated_data/simulated_data.csv"] else [];
     read_csv := fun path =>
       if String.eqb path "simulated_data/simulated_data.csv" then Ok csv_frame
       else Raise (mkExc FileNotFoundError
                     ("[Errno 2] No such file or directory: " +:+ repr path));
     parse_datetime := fun s =>
       if String.eqb s "2024-01-01" then Some 738886 else None;
     mkdir := fun _ => Ok tt;
     savefig := fun _ => Ok tt |}.

Definition sample_config : AnalysisConfig := mkConfig "simulated_data" "out" true.

(** Every file that can be read has no row. *)
Definition no_records (w : World) (config : AnalysisConfig) : Prop :=
  forall p df, In p (glob_csv w (data_folder config)) ->
    read_csv w p = Ok df -> rows df = [].

Definition header_only_frame : DataFrame :=
  {| columns := ["Date"; "Campaign"; "Platform"; "Engagement_Rate"; "Impressions";
                 "Clicks"; "Conversions"; "Revenue"];
     rows := [] |}.

Definition header_only_world : World :=
  {| glob_csv := fun _ => ["data/empty.csv"];
     read_csv := fun _ => Ok header_only_frame;
     parse_datetime := fun _ => None;
     mkdir := fun _ => Ok tt;
     savefig := fun _ => Ok tt |}.

(** A computation that leaves every object as it is. *)
Definition preserves_heap {A} (m : M A) : Prop :=
  forall st, heap (snd (m st)) = heap st.

Definition csv_daily : Daily.Frame :=
  {| Daily.columns := daily_header;
     Daily.rows :=
       [ Daily.mkRow (DateStr "2024-01-01") "Facebook" (Fin (5 # 100)) 20000 500 50
           (Fin (500 # 20000)) (Fin (50 # 500));
         Daily.mkRow (DateStr "2024-01-01") "Instagram" (Fin (7 # 100)) 30000 900 30
           (Fin (900 # 30000)) (Fin (30 # 900)) ] |}.

(** Strictly ascending in the order that a comparison decides. *)
Definition ascending {K} (cmp : K -> K -> comparison) (a b : K) : Prop :=
  cmp a b = Lt.

(** The order of float values; NaN is not comparable. *)
Definition float_le (x y : PyFloat) : Prop :=
  match x, y with
  | NaN, _ | _, NaN => False
  | NegInf, _ => True
  | _, PosInf => True
  | Fin p, Fin q => (p <= q)%Q
  | _, _ => False
  end.

(** The total of the values of an integer series. *)
Definition series_total {K} (s : Series K Z) : Z :=
  fold_right Z.add 0 (map snd s).

(** The rows that have a value in a key column. *)
Definition with_key {K} (key : CampaignRecord -> option K)
    (rs : list CampaignRecord) : list CampaignRecord :=
  List.filter (fun r => match key r with Some _ => true | None => false end) rs.

(** The key of a row of the daily frame. *)
Definition daily_key (row : Daily.Row) : DateCell * string :=
  (Daily.Date row, Daily.Platform row).

(** Reading a decimal numeral. *)
Definition parse_decimal (s : string) : option N :=
  option_map N.of_uint (NilEmpty.uint_of_string s).

(** The ranges the simulator draws the fields of a record from. *)
Definition in_simulated_ranges (r : CampaignRecord) : Prop :=
  exists e i k n v,
    Engagement_Rate r = Some e /\ Impressions r = Some i /\ Clicks r = Some k /\
    Conversions r = Some n /\ Revenue r = Some v /\
    (1 # 100 <= e)%Q /\ (e <= 15 # 100)%Q /\
    10000 <= i <= 1000000 /\ 100 <= k <= 10000 /\ 10 <= n <= 1000 /\
    (1000 # 1 <= v)%Q /\ (v <= 10000 # 1)%Q.

(** The (date, platform) pairs of a simulation over [num_days] days. *)
Definition simulated_keys (num_days : Z) : list (DateCell * string) :=
  list_prod (map (fun day => Timestamp (start_date + day)) (range 0 num_days)) platforms.

(** The frames that could be read, in file order. *)
Definition readable_frames (w : World) (files : list Path) : list DataFrame :=
  flat_map (fun p => match read_csv w p with Ok df => [df] | Raise _ => [] end) files.

(** What [load_data] returns for a file. *)
Definition loaded_frame (w : World) (p : Path) : DataFrame :=
  match read_csv w p with Ok df => df | Raise _ => empty_frame end.

(** The log line of a file that could not be read. *)
Definition load_errors (w : World) (files : list Path) : list Event :=
  flat_map (fun p => match read_csv w p with
                     | Ok _ => []
                     | Raise e =>
                         [LogError ("🚨 Transmission interrupted. Error decoding file "
                                    +:+ p +:+ ": " +:+ str e)]
                     end) files.

(** The functions called and the files written along a trace. *)
Definition calls (t : list Event) : list string :=
  flat_map (fun ev => match ev with Call f => [f] | _ => [] end) t.

Definition saved (t : list Event) : list Path :=
  flat_map (fun ev => match ev with Saved p => [p] | _ => [] end) t.

(** A computation that, when it returns, has made the calls [cs] and
    written the files [ps], in this order. *)
Definition on_success {A} (m : M A) (cs : list string) (ps : list Path) : Prop :=
  forall st a st', m st = (Ok a, st') ->
    calls (trace st') = calls (trace st) ++ cs /\
    saved (trace st') = saved (trace st) ++ ps.

(** A folder with one file that cannot be parsed and one good file. *)
Definition two_file_world : World :=
  {| glob_csv := fun _ => ["data/corrupt.csv"; "data/good.csv"];
     read_csv := fun path =>
       if String.eqb path "data/good.csv" then Ok csv_frame
       else Raise (mkExc ParserError "Error tokenizing data");
     parse_datetime := fun s =>
       if String.eqb s "2024-01-01" then Some 738886 else None;
     mkdir := fun _ => Ok tt;
     savefig := fun _ => Ok tt |}.


(** A folder whose only file lacks the Clicks column. *)
Definition no_clicks_world : World :=
  {| glob_csv := fun _ => ["data/partial.csv"];
     read_csv := fun _ =>
       Ok {| columns := ["Date"; "Campaign"; "Platform"; "Engagement_Rate";
                         "Impressions"; "Conversions"; "Revenue"];
             rows := [ mkRecord (Some (DateStr "2024-01-01")) (Some "A") (Some "Facebook")
                         (Some (5 # 100)%Q) (Some 1000) None (Some 5)
                         (Some (100 # 1)%Q) ] |};
     parse_datetime := fun _ => None;
     mkdir := fun _ => Ok tt;
     savefig := fun _ => Ok tt |}.

(** A folder whose only file lacks the Date column. *)
Definition no_date_world : World :=
  {| glob_csv := fun _ => ["data/nodate.csv"];
     read_csv := fun _ => Ok frame_without_date;
     parse_datetime := fun _ => None;
     mkdir := fun _ => Ok tt;
     savefig := fun _ => Ok tt |}.

(** The lines that [_print_top_campaigns] writes for a series. *)
Definition campaign_lines (s : Series string Q) : list Event :=
  map (fun '(campaign, total) => LogCampaign campaign total) s.

(** Every entry of the first series is at least as large as every entry of
    the second. *)
Definition dominates {V} (le : V -> V -> Prop) (top rest : Series string V) : Prop :=
  forall c v c' v', In (c, v) top -> In (c', v') rest -> le v' v.

(** A row whose date is a datetime already. *)
Definition has_timestamp (r : Daily.Row) : Prop :=
  exists t, Daily.Date r = Timestamp t.

(** A daily frame whose dates are datetimes, as the test suite builds it. *)
Definition timestamp_daily : Daily.Frame :=
  {| Daily.columns := ["Date"; "Platform"; "Engagement_Rate"; "CTR"; "Conversion_Rate"];
     Daily.rows :=
       [ Daily.mkRow (Timestamp 738521) "Facebook" (Fin (1 # 10)) 0 0 0
           (Fin (5 # 100)) (Fin (2 # 100));
         Daily.mkRow (Timestamp 738522) "Instagram" (Fin (1 # 10)) 0 0 0
           (Fin (5 # 100)) (Fin (2 # 100)) ] |}.

(** A daily frame with a date that cannot be parsed. *)
Definition bad_date_daily : Daily.Frame :=
  {| Daily.columns := daily_header;
     Daily.rows :=
       [ Daily.mkRow (DateStr "2024-01-01") "Facebook" (Fin (5 # 100)) 20000 500 50
           (Fin (500 # 20000)) (Fin (50 # 500));
         Daily.mkRow (DateStr "yesterday") "Instagram" (Fin (7 # 100)) 30000 900 30
           (Fin (900 # 30000)) (Fin (30 # 900)) ] |}.

(** * Properties *)

(** ** Grouping *)

Section GroupByFacts.
Context {K : Type} `{EqDecision K} (cmp : K -> K -> comparison).
Hypothesis cmp_eq : forall x y, cmp x y = Eq <-> x = y.

Lemma cmp_refl x : cmp x x = Eq.
Proof. by apply cmp_eq. Qed.

Lemma insert_key_In x k ks : In x (insert_key cmp k ks) <-> x = k \/ In x ks.
Proof.
  induction ks as [|k' ks IH]; simpl.
  - intuition.
  - destruct (cmp k k') eqn:E; simpl.
    + apply cmp_eq in E; subst k'. intuition.
    + intuition.
    + rewrite IH. intuition.
Qed.

Lemma group_keys_In key rs k :
  In k (group_keys cmp key rs) <-> exists r, In r rs /\ key r = Some k.
Proof.
  induction rs as [|r rs IH]; simpl.
  - split; [tauto | intros (r & [] & _)].
  - destruct (key r) as [k'|] eqn:E.
    + rewrite insert_key_In, IH. split.
      * intros [-> | (r' & Hr' & Hk)]; eauto.
      * intros (r' & [<- | Hr'] & Hk); [left; congruence | right; eauto].
    + rewrite IH. split.
      * intros (r' & Hr' & Hk); eauto.
      * intros (r' & [<- | Hr'] & Hk); [congruence | eauto].
Qed.

Lemma in_group_decide key k r :
  in_group cmp key k r = bool_decide (key r = Some k).
Proof.
  unfold in_group. destruct (key r) as [k'|]; [|done].
  destruct (cmp k' k) eqn:E.
  - apply cmp_eq in E; subst. by rewrite bool_decide_eq_true_2.
  - rewrite bool_decide_eq_false_2; [done|].
    intros [= ->]. by rewrite cmp_refl in E.
  - rewrite bool_decide_eq_false_2; [done|].
    intros [= ->]. by rewrite cmp_refl in E.
Qed.

Lemma group_records_where key k rs :
  group cmp key k rs = records_where key k rs.
Proof.
  unfold group, records_where. induction rs as [|r rs IH]; simpl; [done|].
  by rewrite in_group_decide, IH.
Qed.

Lemma groupby_agg_In {V} key (agg : list CampaignRecord -> V) rs k v :
  In (k, v) (groupby_agg cmp key agg rs) <->
  (exists r, In r rs /\ key r = Some k) /\ v = agg (records_where key k rs).
Proof.
  unfold groupby_agg. rewrite in_map_iff. split.
  - intros (k' & [= <- <-] & Hin). rewrite group_records_where.
    split; [by apply group_keys_In | done].
  - intros [Hin ->]. exists k. rewrite group_records_where.
    split; [done | by apply group_keys_In].
Qed.

Lemma tabulate_skip {V} (k k' : K) (ks : list K) (v : V) :
  k <> k' ->
  (if bool_decide (k ∈ ks) then Some v else None) =
  (if bool_decide (k ∈ k' :: ks) then Some v else None).
Proof.
  intros Hne. replace (bool_decide (k ∈ k' :: ks)) with (bool_decide (k ∈ ks)); [done|].
  apply bool_decide_ext. rewrite elem_of_cons. intuition.
Qed.

Lemma series_get_tabulate {V} (f : K -> V) ks k :
  series_get cmp k (map (fun k => (k, f k)) ks) =
  if bool_decide (k ∈ ks) then Some (f k) else None.
Proof.
  induction ks as [|k' ks IH]; simpl; [done|].
  destruct (cmp k k') eqn:E.
  - apply cmp_eq in E; subst. rewrite bool_decide_eq_true_2; [done | by left].
  - rewrite IH. apply tabulate_skip. intros ->. by rewrite cmp_refl in E.
  - rewrite IH. apply tabulate_skip. intros ->. by rewrite cmp_refl in E.
Qed.

(** Two series over the same group labels divide entry by entry. *)
Lemma series_div_aligned (f g : K -> Z) ks :
  series_div cmp (map (fun k => (k, f k)) ks) (map (fun k => (k, g k)) ks) =
  map (fun k => (k, true_divide (f k) (g k))) ks.
Proof.
  unfold series_div.
  assert (Hnone : forall l, (forall k, In k l -> In k ks) ->
            List.filter
              (fun '(k, _) =>
                 match series_get cmp k (map (fun k => (k, f k)) ks) with
                 | Some _ => false | None => true end)
              (map (fun k => (k, g k)) l) = []).
  { induction l as [|k l IH]; intros Hl; simpl; [done|].
    rewrite series_get_tabulate, bool_decide_eq_true_2
      by (apply list_elem_of_In, Hl; by left).
    apply IH. intros k' Hk'. apply Hl. by right. }
  rewrite Hnone, app_nil_r by done.
  rewrite map_map. apply map_ext_in. intros k Hk.
  by rewrite series_get_tabulate, bool_decide_eq_true_2
    by (by apply list_elem_of_In).
Qed.
End GroupByFacts.

(** ** Sorting *)

Section SortFacts.
Context {K V : Type} (geb : V -> V -> bool) (isna : V -> bool).

Lemma insert_desc_In x y (l : Series K V) :
  In y (insert_desc geb x l) <-> y = x \/ In y l.
Proof.
  induction l as [|z l IH]; simpl.
  - intuition.
  - destruct (geb (snd x) (snd z)); simpl; [intuition|].
    rewrite IH. intuition.
Qed.

Lemma insertion_sort_In y (l : Series K V) :
  In y (fold_right (insert_desc geb) [] l) <-> In y l.
Proof.
  induction l as [|x l IH]; simpl; [done|].
  rewrite insert_desc_In, IH. intuition.
Qed.

Lemma sort_values_desc_In y (s : Series K V) :
  In y (sort_values_desc geb isna s) <-> In y s.
Proof.
  unfold sort_values_desc.
  rewrite in_app_iff, insertion_sort_In, !filter_In.
  destruct (isna (snd y)); simpl; intuition.
Qed.

Lemma sort_values_desc_length (s : Series K V) :
  length (sort_values_desc geb isna s) = length s.
Proof.
  unfold sort_values_desc. rewrite length_app.
  assert (Hins : forall x (l : Series K V),
            length (insert_desc geb x l) = S (length l)).
  { intros x l. induction l as [|z l IH]; simpl; [done|].
    destruct (geb (snd x) (snd z)); simpl; [done | by rewrite IH]. }
  assert (Hsort : forall l : Series K V,
            length (fold_right (insert_desc geb) [] l) = length l).
  { induction l as [|x l IH]; simpl; [done | by rewrite Hins, IH]. }
  rewrite Hsort. induction s as [|x s IH]; simpl; [done|].
  destruct (isna (snd x)); simpl; lia.
Qed.

(** Neighbours in the sorted part are in non-increasing order, for any
    comparison in which two values are always comparable one way. *)
Hypothesis geb_total : forall x y, geb x y = false -> geb y x = true.

Lemma insert_desc_Sorted x (l : Series K V) :
  Sorted (desc geb) l -> Sorted (desc geb) (insert_desc geb x l).
Proof.
  induction 1 as [|z l Hl IH Hz]; simpl.
  - by repeat constructor.
  - destruct (geb (snd x) (snd z)) eqn:E.
    + constructor; [by constructor | by constructor].
    + constructor; [done|].
      destruct l as [|w l]; simpl.
      * constructor. by apply geb_total.
      * destruct (geb (snd x) (snd w)); constructor.
        -- by apply geb_total.
        -- by inversion Hz.
Qed.

Lemma insertion_sort_Sorted (l : Series K V) :
  Sorted (desc geb) (fold_right (insert_desc geb) [] l).
Proof.
  induction l as [|x l IH]; simpl; [constructor | by apply insert_desc_Sorted].
Qed.
End SortFacts.

(** ** The group orders decide equality *)

Lemma string_compare_eq (x y : string) : String.compare x y = Eq <-> x = y.
Proof.
  split; [apply String.compare_eq_iff|]. intros ->.
  pose proof (String.compare_antisym y y) as H.
  destruct (String.compare y y); simpl in H; congruence.
Qed.

Lemma date_compare_eq (a b : DateCell) : date_compare a b = Eq <-> a = b.
Proof.
  destruct a as [x|x], b as [y|y]; simpl.
  - rewrite string_compare_eq. split; congruence.
  - split; discriminate.
  - split; discriminate.
  - rewrite Z.compare_eq_iff. split; congruence.
Qed.

Lemma date_platform_compare_eq (x y : DateCell * string) :
  date_platform_compare x y = Eq <-> x = y.
Proof.
  destruct x as [d p], y as [d' p']. unfold date_platform_compare, pair_compare. simpl.
  destruct (date_compare d d') eqn:E.
  - apply date_compare_eq in E; subst. rewrite string_compare_eq. split; congruence.
  - split; [discriminate|]. intros [= -> ->].
    pose proof (proj2 (date_compare_eq d' d') eq_refl). congruence.
  - split; [discriminate|]. intros [= -> ->].
    pose proof (proj2 (date_compare_eq d' d') eq_refl). congruence.
Qed.

(** ** What the two aggregations compute on a frame that has the columns *)

Lemma has_column_true name df :
  name ∈ columns df -> has_column name df = true.
Proof. intros H. unfold has_column. by apply bool_decide_eq_true_2. Qed.

Lemma required_in_header df name :
  has_required_columns df -> name ∈ required_columns -> name ∈ columns df.
Proof.
  intros Hsub Hin. apply Hsub in Hin. by apply elem_of_list_to_set in Hin.
Qed.

Lemma groupby_column_ok {V} df keyname key colname (agg : list CampaignRecord -> V) :
  keyname ∈ columns df -> colname ∈ columns df ->
  groupby_column df keyname key colname agg =
  Ok (groupby_agg String.compare key agg (rows df)).
Proof.
  intros Hk Hc. unfold groupby_column, require_key, require_column.
  by rewrite !has_column_true.
Qed.

Lemma analyze_campaign_performance_ok df :
  has_required_columns df ->
  analyze_campaign_performance df =
  Ok {| revenue := sort_values_desc Q_geb (fun _ => false)
                     (groupby_agg String.compare Campaign (sum_Q Revenue) (rows df));
        ctr := sort_values_desc float_geb isnan
                 (campaign_ratio Clicks Impressions (rows df));
        conversion_rate := sort_values_desc float_geb isnan
                 (campaign_ratio Conversions Clicks (rows df));
        engagement_by_platform :=
          groupby_agg String.compare Platform (mean_Q Engagement_Rate) (rows df);
        impressions_by_platform :=
          groupby_agg String.compare Platform (sum_Z Impressions) (rows df) |}.
Proof.
  intros Hreq. unfold analyze_campaign_performance.
  rewrite bool_decide_eq_true_2 by done. simpl.
  assert (Hin : forall n, n ∈ required_columns -> n ∈ columns df)
    by (intros n; by apply required_in_header).
  rewrite !groupby_column_ok by (apply Hin; unfold required_columns; set_solver).
  simpl. unfold groupby_agg, campaign_ratio.
  rewrite !(series_div_aligned String.compare string_compare_eq
              (fun k => sum_Z _ (group String.compare Campaign k (rows df)))
              (fun k => sum_Z _ (group String.compare Campaign k (rows df)))).
  done.
Qed.

Lemma campaign_ratio_In num den rs c v :
  In (c, v) (campaign_ratio num den rs) <->
  (exists r, In r rs /\ Campaign r = Some c) /\
  v = true_divide (sum_Z num (records_where Campaign c rs))
                  (sum_Z den (records_where Campaign c rs)).
Proof.
  unfold campaign_ratio. rewrite in_map_iff. split.
  - intros (k & [= <- <-] & Hin).
    rewrite (group_records_where _ string_compare_eq).
    split; [by apply (group_keys_In _ string_compare_eq) | done].
  - intros [Hin ->]. exists c.
    rewrite (group_records_where _ string_compare_eq).
    split; [done | by apply (group_keys_In _ string_compare_eq)].
Qed.

Lemma analyze_platform_performance_ok df :
  daily_columns_present df ->
  analyze_platform_performance df =
  Ok {| Daily.columns := daily_header;
        Daily.rows :=
          map (fun k => daily_row k (records_where date_platform k (rows df)))
              (group_keys date_platform_compare date_platform (rows df)) |}.
Proof.
  intros Hcols. unfold analyze_platform_performance, require_key, require_agg_columns.
  rewrite !has_column_true by (apply Hcols; set_solver).
  simpl. rewrite !has_column_true by (apply Hcols; set_solver).
  simpl. unfold Daily.setitem, daily_agg, groupby_agg. simpl.
  f_equal. f_equal. rewrite !map_map. apply map_ext. intros k.
  by rewrite (group_records_where _ date_platform_compare_eq).
Qed.

Lemma analyze_campaign_performance_Ok_inv df perf :
  analyze_campaign_performance df = Ok perf -> has_required_columns df.
Proof.
  unfold analyze_campaign_performance, has_required_columns.
  case_bool_decide; [done | discriminate].
Qed.

Lemma analyze_platform_performance_Ok_inv df daily :
  analyze_platform_performance df = Ok daily -> daily_columns_present df.
Proof.
  unfold analyze_platform_performance, require_key, require_agg_columns, agg_columns.
  simpl.
  destruct (has_column "Date" df) eqn:H1; simpl; [|discriminate].
  destruct (has_column "Platform" df) eqn:H2; simpl; [|discriminate].
  destruct (has_column "Engagement_Rate" df) eqn:H3; simpl;
    destruct (has_column "Impressions" df) eqn:H4; simpl;
    destruct (has_column "Clicks" df) eqn:H5; simpl;
    destruct (has_column "Conversions" df) eqn:H6; simpl; try discriminate.
  intros _ n Hn. unfold has_column in *.
  repeat (apply elem_of_cons in Hn as [-> | Hn]; [by eapply bool_decide_eq_true_1|]).
  by apply elem_of_nil in Hn.
Qed.


(** ** Ratios of group totals *)

Lemma analyze_test_dataframe :
  analyze_campaign_performance test_dataframe = Ok test_performance.
Proof. vm_compute. reflexivity. Qed.


(** ** Revenue totals *)

Lemma filter_all {A} (l : list A) : List.filter (fun _ => true) l = l.
Proof. induction l as [|x l IH]; simpl; [done | by rewrite IH]. Qed.

Lemma filter_none {A} (l : list A) : List.filter (fun _ => false) l = [].
Proof. induction l as [|x l IH]; simpl; done. Qed.

Lemma Q_geb_total (x y : Q) : Q_geb x y = false -> Q_geb y x = true.
Proof.
  unfold Q_geb. intros H. apply Qle_bool_iff.
  destruct (Qlt_le_dec x y) as [Hlt | Hle].
  - by apply Qlt_le_weak.
  - apply Qle_bool_iff in Hle. congruence.
Qed.

Lemma Sorted_weaken {A} (R S : A -> A -> Prop) (l : list A) :
  (forall x y, R x y -> S x y) -> Sorted R l -> Sorted S l.
Proof.
  intros HRS. induction 1 as [|x l Hl IH Hx]; constructor; [done|].
  destruct Hx; constructor. by apply HRS.
Qed.

Lemma revenue_sorted (s : Series string Q) :
  Sorted revenue_desc (sort_values_desc Q_geb (fun _ => false) s).
Proof.
  unfold sort_values_desc. simpl. rewrite filter_all, filter_none, app_nil_r.
  apply (Sorted_weaken (desc Q_geb)).
  - intros a b H. unfold desc, Q_geb in H. by apply Qle_bool_iff in H.
  - apply insertion_sort_Sorted. apply Q_geb_total.
Qed.


Lemma test_dataframe_has_required_columns : has_required_columns test_dataframe.
Proof.
  apply (bool_decide_eq_true_1 _). vm_compute. reflexivity.
Qed.


(** ** Zero denominators *)

Lemma true_divide_zero a : true_divide a 0 = undefined_ratio a.
Proof. reflexivity. Qed.

Lemma undefined_ratio_not_finite a : is_finite (undefined_ratio a) = false.
Proof. unfold undefined_ratio. destruct (a =? 0), (0 <? a); reflexivity. Qed.



(** ** The empty collection *)

(** C5. A collection with no rows whose header has the eight record fields
    (and possibly others) is aggregated without an error, and every output
    is empty: the five series of the campaign and platform metrics have no
    entry and the daily frame has no row. *)
Theorem empty_collection_gives_empty_metrics (cols : list string) :
  (forall n, n ∈ record_fields -> n ∈ cols) ->
  analyze_campaign_performance (mkFrame cols []) = Ok (mkPerformance [] [] [] [] []) /\
  analyze_platform_performance (mkFrame cols []) = Ok (Daily.mkFrame daily_header []).
Proof.
  intros Hcols. split.
  - rewrite analyze_campaign_performance_ok; [done|].
    intros n Hn. apply elem_of_list_to_set. simpl. apply Hcols.
    unfold required_columns, record_fields in *. set_unfold. tauto.
  - rewrite analyze_platform_performance_ok; [done|].
    intros n Hn. simpl. apply Hcols. unfold record_fields. set_unfold. tauto.
Qed.

Lemma empty_collection_gives_empty_metrics_witness :
  analyze_campaign_performance (mkFrame (record_fields ++ ["Region"]) []) =
    Ok (mkPerformance [] [] [] [] []) /\
  analyze_platform_performance (mkFrame (record_fields ++ ["Region"]) []) =
    Ok (Daily.mkFrame daily_header []).
Proof.
  apply (empty_collection_gives_empty_metrics (record_fields ++ ["Region"])).
  intros n Hn. apply elem_of_app. by left.
Defined.

(** ** The schema check of the campaign aggregation *)

(** A frame that lacks the Date field, one of the eight record fields, is
    accepted by the campaign aggregation: Date is not among the columns it
    asks for. *)
Lemma campaign_aggregation_accepts_missing_date :
  ("Date" ∈ record_fields) /\
  ("Date" ∉ columns frame_without_date) /\
  analyze_campaign_performance frame_without_date =
    Ok {| revenue := [("A", (100 # 1)%Q)];
          ctr := [("A", Fin (50 # 1000))];
          conversion_rate := [("A", Fin (5 # 50))];
          engagement_by_platform := [("Facebook", Fin (5 # 100))];
          impressions_by_platform := [("Facebook", 1000)] |}.
Proof.
  split; [|split].
  - unfold record_fields. set_unfold. tauto.
  - apply (bool_decide_eq_false_1 _). vm_compute. reflexivity.
  - vm_compute. reflexivity.
Qed.

Lemma required_columns_spec (c : string) :
  c ∈ required_columns <->
  c ∈ ["Campaign"; "Revenue"; "Platform"; "Impressions"; "Clicks"; "Conversions";
       "Engagement_Rate"].
Proof. unfold required_columns. set_unfold. tauto. Qed.

(** C2, amended. The campaign aggregation asks for seven columns: Campaign,
    Revenue, Platform, Impressions, Clicks, Conversions and Engagement_Rate
    (not Date).  When the header lacks at least one of them it raises a
    [ValueError] whose text lists the lacking ones, each once and no other
    name; when the header has all seven it returns a result, whatever other
    columns the header has. *)
Theorem campaign_schema_check (df : DataFrame) :
  (forall c, c ∈ required_columns <->
     c ∈ ["Campaign"; "Revenue"; "Platform"; "Impressions"; "Clicks"; "Conversions";
          "Engagement_Rate"]) /\
  ((exists c, c ∈ required_columns /\ c ∉ columns df) ->
     exists names,
       analyze_campaign_performance df = Raise (mkExc ValueError (missing_message names)) /\
       NoDup names /\
       forall c, c ∈ names <-> c ∈ required_columns /\ c ∉ columns df) /\
  ((forall c, c ∈ required_columns -> c ∈ columns df) ->
     exists perf, analyze_campaign_performance df = Ok perf).
Proof.
  split; [apply required_columns_spec|]. split.
  - intros (c & Hreq & Hmiss). exists (elements (missing_columns df)).
    split; [|split].
    + unfold analyze_campaign_performance. rewrite bool_decide_eq_false_2; [done|].
      intros Hsub. apply Hmiss. apply Hsub in Hreq. by apply elem_of_list_to_set in Hreq.
    + apply NoDup_elements.
    + intros c'. rewrite elem_of_elements. unfold missing_columns.
      rewrite elem_of_difference, elem_of_list_to_set. done.
  - intros Hall. eexists. apply analyze_campaign_performance_ok.
    intros c Hc. apply elem_of_list_to_set. by apply Hall.
Qed.

Lemma campaign_schema_check_witness :
  (exists names,
     analyze_campaign_performance frame_with_two_columns =
       Raise (mkExc ValueError (missing_message names)) /\
     NoDup names /\
     forall c, c ∈ names <->
       c ∈ required_columns /\ c ∉ columns frame_with_two_columns) /\
  (exists perf,
     analyze_campaign_performance (mkFrame (record_fields ++ ["Region"]) []) = Ok perf).
Proof.
  split.
  - apply (proj1 (proj2 (campaign_schema_check frame_with_two_columns))).
    exists "Clicks". split.
    + apply (bool_decide_eq_true_1 _). vm_compute. reflexivity.
    + apply (bool_decide_eq_false_1 _). vm_compute. reflexivity.
  - apply (proj2 (proj2 (campaign_schema_check (mkFrame (record_fields ++ ["Region"]) [])))).
    intros c Hc. apply (bool_decide_eq_true_1 _).
    apply required_columns_spec in Hc.
    repeat (apply elem_of_cons in Hc as [-> | Hc]; [vm_compute; reflexivity|]).
    by apply elem_of_nil in Hc.
Defined.

(** ** The simulator: loops over the generator *)

Lemma for_each_Forall2 {A B} (f : A -> Rand B) (l : list A) (st : RandomState) :
  Forall2 (fun x b => exists st', b = fst (f x st')) l (fst (for_each f l st)).
Proof.
  revert st. induction l as [|x l IH]; intros st; simpl.
  - constructor.
  - unfold bind. destruct (f x st) as [b st1] eqn:E1.
    specialize (IH st1). destruct (for_each f l st1) as [bs st2]. simpl in *.
    constructor; [|done]. exists st. by rewrite E1.
Qed.

Lemma for_each_Forall {A B} (f : A -> Rand B) (Q : B -> Prop) (l : list A)
    (st : RandomState) :
  (forall x st', Q (fst (f x st'))) -> Forall Q (fst (for_each f l st)).
Proof.
  intros HQ. eapply Forall2_Forall_r; [apply for_each_Forall2|].
  apply Forall_forall. intros x _ b (st' & ->). apply HQ.
Qed.

Lemma for_each_length {A B} (f : A -> Rand B) (l : list A) (st : RandomState) :
  length (fst (for_each f l st)) = length l.
Proof. symmetry. eapply Forall2_length, for_each_Forall2. Qed.

Lemma range_length lo hi : length (range lo hi) = Z.to_nat (hi - lo).
Proof. unfold range. by rewrite length_map, length_seq. Qed.

Lemma concat_length_uniform {A} (k : nat) (ll : list (list A)) :
  Forall (fun l => length l = k) ll ->
  length (List.concat ll) = (length ll * k)%nat.
Proof.
  induction 1 as [|l ll Hl _ IH]; simpl; [done|].
  rewrite length_app, IH, Hl. lia.
Qed.

Lemma len_frame_of_records data : len (frame_of_records data) = length data.
Proof. by destruct data. Qed.

Lemma rows_frame_of_records data : rows (frame_of_records data) = data.
Proof. by destruct data. Qed.

Lemma simulated_record_campaign campaign platform day st :
  Campaign (fst (simulated_record campaign platform day st)) = Some campaign.
Proof. reflexivity. Qed.

Lemma generated_block num_days campaign st :
  campaign_block num_days campaign
    (fst (for_each
            (fun platform =>
               for_each (fun day => simulated_record campaign platform day)
                 (range 0 num_days))
            platforms st)).
Proof.
  split; [by rewrite for_each_length|].
  apply for_each_Forall. intros platform st'. split.
  - rewrite for_each_length, range_length. f_equal. lia.
  - apply for_each_Forall. intros day st''. apply simulated_record_campaign.
Qed.

Lemma generated_blocks num_campaigns num_days st :
  let '(campaigns, st1) := generate_campaign_names num_campaigns st in
  exists data st2,
    generate_simulated_data num_campaigns num_days st =
      (frame_of_records (List.concat (List.concat data)), st2) /\
    Forall2 (campaign_block num_days) campaigns data.
Proof.
  unfold generate_simulated_data, bind.
  destruct (generate_campaign_names num_campaigns st) as [campaigns st1].
  pose proof (for_each_Forall2
    (fun campaign =>
       for_each
         (fun platform =>
            for_each (fun day => simulated_record campaign platform day)
              (range 0 num_days))
         platforms) campaigns st1) as H.
  destruct (for_each _ campaigns st1) as [data st2]. simpl in H.
  exists data, st2. split; [done|].
  eapply Forall2_impl; [exact H|].
  intros campaign block (st' & ->). apply generated_block.
Qed.

Lemma blocks_row_count num_days campaigns data :
  Forall2 (campaign_block num_days) campaigns data ->
  length (List.concat (List.concat data)) =
  (length campaigns * 2 * Z.to_nat num_days)%nat.
Proof.
  induction 1 as [|c block campaigns data [Hlen Hdays] _ IH]; simpl; [done|].
  rewrite concat_app, length_app, IH.
  rewrite (concat_length_uniform (Z.to_nat num_days)), Hlen.
  - lia.
  - eapply Forall_impl; [exact Hdays|]. by intros days [? _].
Qed.

Lemma generate_campaign_names_length num_campaigns st :
  length (fst (generate_campaign_names num_campaigns st)) = Z.to_nat num_campaigns.
Proof.
  unfold generate_campaign_names. rewrite for_each_length, range_length. f_equal. lia.
Qed.



(** ** The simulator: campaign names *)

Lemma append_assoc (a b c : string) : (a +:+ b) +:+ c = a +:+ (b +:+ c).
Proof.
  induction a as [|x a IH]; [done|].
  change (String x ((a +:+ b) +:+ c) = String x (a +:+ (b +:+ c))). by rewrite IH.
Qed.

Lemma append_nil_r (a : string) : a +:+ "" = a.
Proof.
  induction a as [|x a IH]; [done|].
  change (String x (a +:+ "") = String x a). by rewrite IH.
Qed.

Lemma last_token_from_plain acc s :
  contains " " s = false -> last_token_from acc s = acc +:+ s.
Proof.
  revert acc. induction s as [|c s IH]; intros acc H;
    cbn [contains last_token_from] in *.
  - by rewrite append_nil_r.
  - apply orb_false_iff in H as [Hc H]. rewrite Ascii.eqb_sym, Hc.
    rewrite IH by done. by rewrite append_assoc.
Qed.

Lemma last_token_from_space acc x t :
  last_token_from acc (x +:+ String " " t) = last_token_from "" t.
Proof.
  revert acc. induction x as [|c x IH]; intros acc; [done|].
  change (String c x +:+ String " " t) with (String c (x +:+ String " " t)).
  cbn [last_token_from]. destruct (Ascii.eqb c " "); apply IH.
Qed.

Lemma contains_zeros c k s :
  Ascii.eqb c "0" = false -> contains c (zeros k +:+ s) = contains c s.
Proof.
  intros Hc. induction k as [|k IH]; [done|].
  change (zeros (S k) +:+ s) with (String "0" (zeros k +:+ s)).
  cbn [contains]. by rewrite Hc, IH.
Qed.

Lemma decimal_no_space d : contains " " (NilEmpty.string_of_uint d) = false.
Proof. induction d; simpl; done. Qed.

Lemma format_03d_no_space i : 0 <= i -> contains " " (format_03d i) = false.
Proof.
  intros Hi. unfold format_03d. rewrite (proj2 (Z.ltb_ge i 0)) by done.
  unfold zero_pad, decimal. rewrite contains_zeros by done. apply decimal_no_space.
Qed.

Lemma uint_of_zeros k s :
  option_map N.of_uint (NilEmpty.uint_of_string (zeros k +:+ s)) =
  option_map N.of_uint (NilEmpty.uint_of_string s).
Proof.
  induction k as [|k IH]; [done|].
  change (zeros (S k) +:+ s) with (String "0" (zeros k +:+ s)).
  rewrite <- IH. simpl. by destruct (NilEmpty.uint_of_string (zeros k +:+ s)).
Qed.

Lemma campaign_number_name adjective noun i :
  0 <= i -> campaign_number (campaign_name adjective noun i) = Some (Z.to_N i).
Proof.
  intros Hi. unfold campaign_number, campaign_name, last_token.
  change (" " +:+ noun +:+ " " +:+ format_03d i)
    with (String " " (noun +:+ String " " (format_03d i))).
  rewrite !last_token_from_space, last_token_from_plain by by apply format_03d_no_space.
  change ("" +:+ format_03d i) with (format_03d i).
  unfold format_03d. rewrite (proj2 (Z.ltb_ge i 0)) by done.
  unfold zero_pad, decimal. rewrite uint_of_zeros, NilEmpty.usu. simpl.
  by rewrite DecimalN.Unsigned.of_to.
Qed.

Lemma Forall2_map_eq {A B C} (R : A -> B -> Prop) (g : B -> C) (h : A -> C)
    (l : list A) (k : list B) :
  Forall2 R l k -> (forall x y, In x l -> R x y -> g y = h x) -> map g k = map h l.
Proof.
  induction 1 as [|x y l k Hxy _ IH]; intros Hgh; simpl; [done|].
  rewrite (Hgh x y) by (by left || done). f_equal.
  apply IH. intros x' y' Hin. apply Hgh. by right.
Qed.

Lemma generated_names_numbers num_campaigns st :
  map campaign_number (fst (generate_campaign_names num_campaigns st)) =
  map (fun k => Some (N.of_nat (S k))) (seq 0 (Z.to_nat num_campaigns)).
Proof.
  unfold generate_campaign_names.
  erewrite Forall2_map_eq with (h := fun i => Some (Z.to_N i));
    [| apply for_each_Forall2 |].
  - unfold range. rewrite map_map.
    replace (num_campaigns + 1 - 1) with num_campaigns by lia.
    apply map_ext. intros k. f_equal. lia.
  - intros i name Hin (st' & ->). unfold range in Hin.
    apply in_map_iff in Hin as (k & <- & _).
    apply campaign_number_name. lia.
Qed.

Lemma generated_names_NoDup num_campaigns st :
  NoDup (fst (generate_campaign_names num_campaigns st)).
Proof.
  apply (NoDup_fmap_1 campaign_number).
  change (NoDup (map campaign_number (fst (generate_campaign_names num_campaigns st)))).
  rewrite generated_names_numbers.
  apply (NoDup_fmap_2 (fun k => Some (N.of_nat (S k)))), NoDup_seq.
Qed.

Lemma block_campaign num_days campaign block c :
  1 <= num_days -> campaign_block num_days campaign block ->
  (exists r, In r (List.concat block) /\ Campaign r = Some c) <-> campaign = c.
Proof.
  intros Hd [Hlen Hdays]. split.
  - intros (r & Hin & Hc). apply in_concat in Hin as (days & Hdays_in & Hr).
    rewrite Forall_forall in Hdays.
    destruct (Hdays days) as [_ Hall]; [by apply list_elem_of_In|].
    rewrite Forall_forall in Hall.
    specialize (Hall r (proj2 (list_elem_of_In _ _) Hr)). congruence.
  - intros <-. destruct block as [|days block]; [discriminate|].
    apply Forall_cons in Hdays as [[Hn Hall] _].
    destruct days as [|r days]; [simpl in Hn; lia|].
    apply Forall_cons in Hall as [Hr _].
    exists r. split; [|done]. simpl. by left.
Qed.

Lemma blocks_campaigns num_days campaigns data c :
  1 <= num_days -> Forall2 (campaign_block num_days) campaigns data ->
  (exists r, In r (List.concat (List.concat data)) /\ Campaign r = Some c) <->
  In c campaigns.
Proof.
  intros Hd. induction 1 as [|c0 block campaigns data Hblock _ IH]; simpl.
  - split; [by intros (r & [] & _) | done].
  - rewrite <- IH, <- (block_campaign num_days c0 block c Hd Hblock).
    rewrite concat_app. split.
    + intros (r & Hin & Hc). apply in_app_iff in Hin as [Hin | Hin]; eauto.
    + intros [(r & Hin & Hc) | (r & Hin & Hc)]; exists r;
        (split; [apply in_app_iff; auto | done]).
Qed.

Lemma generated_names_positional num_campaigns st k name :
  fst (generate_campaign_names num_campaigns st) !! k = Some name ->
  exists adjective noun, name = campaign_name adjective noun (Z.of_nat k + 1).
Proof.
  intros Hk. unfold generate_campaign_names in Hk.
  pose proof (for_each_Forall2
    (fun i => (a <- choice adjectives ;; n <- choice nouns ;;
               ret (campaign_name a n i))%rand)
    (range 1 (num_campaigns + 1)) st) as H.
  destruct (Forall2_lookup_r _ _ _ _ _ H Hk) as (i & Hi & st' & ->).
  unfold range in Hi. rewrite list_lookup_fmap in Hi.
  destruct (seq 0 _ !! k) as [j|] eqn:Hj; [|discriminate].
  apply lookup_seq in Hj as [-> _]. injection Hi as <-.
  eexists _, _. simpl. f_equal. lia.
Qed.

(** C10, amended. For a non-negative count the generator returns that many
    names; the name at position [k] ends in the zero-padded number [k + 1],
    and no two names are equal.  When at least one day is simulated, the
    campaign identifiers that occur in the simulated frame are exactly
    these names. *)
Theorem campaign_names_distinct (num_campaigns : Z) (st : RandomState) :
  0 <= num_campaigns ->
  let names := fst (generate_campaign_names num_campaigns st) in
  Z.of_nat (length names) = num_campaigns /\
  NoDup names /\
  (forall k name, names !! k = Some name ->
     exists adjective noun, name = campaign_name adjective noun (Z.of_nat k + 1)) /\
  (forall num_days c, 1 <= num_days ->
     (exists r, In r (rows (fst (generate_simulated_data num_campaigns num_days st))) /\
                Campaign r = Some c) <-> In c names).
Proof.
  intros Hn names. split; [|split; [|split]].
  - unfold names. rewrite generate_campaign_names_length. lia.
  - apply generated_names_NoDup.
  - intros k name. apply generated_names_positional.
  - intros num_days c Hd. unfold names.
    pose proof (generated_blocks num_campaigns num_days st) as H.
    destruct (generate_campaign_names num_campaigns st) as [campaigns st1].
    destruct H as (data & st2 & -> & Hblocks). simpl.
    rewrite rows_frame_of_records. by apply (blocks_campaigns num_days).
Qed.

Lemma campaign_names_distinct_witness :
  let names := fst (generate_campaign_names 3 seed0) in
  Z.of_nat (length names) = 3 /\
  NoDup names /\
  (forall k name, names !! k = Some name ->
     exists adjective noun, name = campaign_name adjective noun (Z.of_nat k + 1)) /\
  (forall num_days c, 1 <= num_days ->
     (exists r, In r (rows (fst (generate_simulated_data 3 num_days seed0))) /\
                Campaign r = Some c) <-> In c names).
Proof. apply (campaign_names_distinct 3 seed0). lia. Defined.

(** With no day to simulate the frame is empty: the one generated name
    occurs in no record. *)
Lemma no_days_no_campaign_identifier :
  fst (generate_campaign_names 1 seed0) = ["Sleek Vision 001"] /\
  rows (fst (generate_simulated_data 1 0 seed0)) = [] /\
  ~ (exists r, In r (rows (fst (generate_simulated_data 1 0 seed0))) /\
               Campaign r = Some "Sleek Vision 001").
Proof.
  split; [vm_compute; reflexivity|].
  assert (H : rows (fst (generate_simulated_data 1 0 seed0)) = [])
    by (vm_compute; reflexivity).
  split; [exact H|]. rewrite H. by intros (r & [] & _).
Qed.

(** ** The loader *)

Lemma load_data_cases w file_path st :
  load_data w file_path st =
  match read_csv w file_path with
  | Ok df => (Ok df, st)
  | Raise e =>
      (Ok empty_frame,
       mkState (heap st) (next_loc st)
         (trace st ++ [LogError ("🚨 Transmission interrupted. Error decoding file "
                                 +:+ file_path +:+ ": " +:+ str e)]))
  end.
Proof.
  unfold load_data, try_except, lift. by destruct (read_csv w file_path).
Qed.



(** ** The controller *)

Lemma aggregation_calls_app t1 t2 :
  aggregation_calls (t1 ++ t2) = aggregation_calls t1 ++ aggregation_calls t2.
Proof. unfold aggregation_calls. apply List.filter_app. Qed.

Lemma load_all_no_records w files st :
  (forall p df, In p files -> read_csv w p = Ok df -> rows df = []) ->
  exists dfs st',
    mmap (load_data w) files st = (Ok dfs, st') /\
    length dfs = length files /\
    Forall (fun df => rows df = []) dfs /\
    heap st' = heap st /\
    aggregation_calls (trace st') = aggregation_calls (trace st).
Proof.
  revert st. induction files as [|p files IH]; intros st Hnone; simpl.
  - exists [], st. by repeat split.
  - unfold mbind. rewrite load_data_cases.
    destruct (read_csv w p) as [df|e] eqn:E.
    + destruct (IH st) as (dfs & st' & -> & Hlen & Hall & Hheap & Htrace).
      { intros p' df' Hin. apply Hnone. by right. }
      exists (df :: dfs), st'. simpl. repeat split; try done; [by rewrite Hlen|].
      constructor; [|done]. eapply Hnone; [by left | done].
    + match goal with |- context [mmap _ files ?s] =>
        destruct (IH s) as (dfs & st' & -> & Hlen & Hall & Hheap & Htrace) end.
      { intros p' df' Hin. apply Hnone. by right. }
      exists (empty_frame :: dfs), st'. simpl. repeat split; try done.
      * by rewrite Hlen.
      * by constructor.
      * rewrite Htrace. simpl. rewrite aggregation_calls_app. simpl.
        by rewrite app_nil_r.
Qed.

Lemma stacked_no_records dfs :
  Forall (fun df => rows df = []) dfs ->
  flat_map (fun df => map (reindex_row (columns df)) (rows df)) dfs = [].
Proof.
  induction 1 as [|df dfs Hdf _ IH]; simpl; [done|]. by rewrite Hdf, IH.
Qed.

Lemma concat_no_records dfs :
  dfs <> [] -> Forall (fun df => rows df = []) dfs ->
  exists df, concat dfs = Ok df /\ rows df = [].
Proof.
  intros Hne Hall. destruct dfs as [|df0 dfs]; [done|].
  eexists. split; [reflexivity|]. cbn [rows]. by apply stacked_no_records.
Qed.

Lemma load_all_data_no_records w config st p files :
  glob_csv w (data_folder config) = p :: files -> no_records w config ->
  exists df st',
    _load_all_data w config st = (Ok df, st') /\
    rows df = [] /\
    heap st' = heap st /\
    aggregation_calls (trace st') = aggregation_calls (trace st).
Proof.
  intros Hglob Hnone. unfold no_records in Hnone. rewrite Hglob in Hnone.
  destruct (load_all_no_records w (p :: files) st Hnone)
    as (dfs & st1 & Hload & Hlen & Hall & Hheap & Htrace).
  destruct (concat_no_records dfs) as (df & Hconcat & Hrows); [|done|].
  { intros ->. discriminate. }
  exists df, st1. unfold _load_all_data. rewrite Hglob. cbv beta iota.
  unfold mbind. rewrite Hload. unfold lift. by rewrite Hconcat.
Qed.

Lemma empty_no_rows df : rows df = [] -> empty df = true.
Proof. intros H. unfold empty. rewrite H. by destruct (columns df). Qed.

Lemma no_data_error_not_schema names :
  no_data_error <> mkExc ValueError (missing_message names).
Proof.
  unfold no_data_error, missing_message. intros H. injection H as H.
  vm_compute in H. discriminate.
Qed.

(** C7. When the data folder has no CSV file, or no file yields a record,
    [run_analysis] raises without a call of either aggregation and without
    creating any object.  The exception is [FileNotFoundError] in the first
    case and the [ValueError] "came up empty" in the second; neither is the
    error of the schema check. *)
Theorem no_data_stops_before_aggregation (w : World) (config : AnalysisConfig)
    (st : State) :
  glob_csv w (data_folder config) = [] \/ no_records w config ->
  exists e st',
    run_analysis w config st = (Raise e, st') /\
    aggregation_calls (trace st') = aggregation_calls (trace st) /\
    heap st' = heap st /\
    (e = mkExc FileNotFoundError ("🚫 No CSV files found in " +:+ data_folder config) \/
     e = no_data_error) /\
    (forall names, e <> mkExc ValueError (missing_message names)).
Proof.
  intros Hcase.
  destruct (glob_csv w (data_folder config)) as [|p files] eqn:Hglob.
  - eexists _, _. unfold run_analysis, try_except, mbind, _load_all_data.
    rewrite Hglob. simpl. split; [reflexivity|]. simpl.
    split; [by rewrite aggregation_calls_app, app_nil_r|].
    split; [done|]. split; [by left|]. intros names H. discriminate.
  - destruct Hcase as [Hnil | Hnone]; [discriminate|].
    destruct (load_all_data_no_records w config st p files Hglob Hnone)
      as (df & st1 & Hload & Hrows & Hheap & Htrace).
    eexists _, _. unfold run_analysis, try_except, mbind at 1.
    rewrite Hload. rewrite (empty_no_rows _ Hrows). simpl.
    split; [reflexivity|]. simpl.
    split; [by rewrite aggregation_calls_app, app_nil_r|].
    split; [done|]. split; [by right|]. apply no_data_error_not_schema.
Qed.

Lemma no_data_stops_before_aggregation_witness :
  (exists e st',
     run_analysis sample_world (mkConfig "nowhere" "out" false) initial_state =
       (Raise e, st') /\
     aggregation_calls (trace st') = [] /\
     e = mkExc FileNotFoundError "🚫 No CSV files found in nowhere") /\
  (exists e st',
     run_analysis header_only_world (mkConfig "data" "out" false) initial_state =
       (Raise e, st') /\
     aggregation_calls (trace st') = [] /\
     e = no_data_error).
Proof.
  split.
  - destruct (no_data_stops_before_aggregation sample_world
                (mkConfig "nowhere" "out" false) initial_state)
      as (e & st' & Hrun & Hcalls & _ & [He | He] & _).
    { left. reflexivity. }
    + exists e, st'. split; [exact Hrun|]. split; [exact Hcalls | exact He].
    + exfalso. subst e. vm_compute in Hrun. discriminate.
  - destruct (no_data_stops_before_aggregation header_only_world
                (mkConfig "data" "out" false) initial_state)
      as (e & st' & Hrun & Hcalls & _ & [He | He] & _).
    { right. intros p df [<- | []] [= <-]. reflexivity. }
    + exfalso. subst e. vm_compute in Hrun. discriminate.
    + exists e, st'. split; [exact Hrun|]. split; [exact Hcalls | exact He].
Defined.

(** ** The charts and the objects they are given *)

Lemma preserves_mret {A} (a : A) : preserves_heap (mret a).
Proof. by intros st. Qed.

Lemma preserves_raise {A} e : preserves_heap (@raise A e).
Proof. by intros st. Qed.

Lemma preserves_lift {A} (r : Result A) : preserves_heap (lift r).
Proof. by intros st. Qed.

Lemma preserves_emit ev : preserves_heap (emit ev).
Proof. by intros st. Qed.

Lemma preserves_load ref : preserves_heap (load ref).
Proof. intros st. unfold load. by destruct (heap st !! ref). Qed.

Lemma preserves_mbind {A B} (m : M A) (k : A -> M B) :
  preserves_heap m -> (forall a, preserves_heap (k a)) -> preserves_heap (mbind m k).
Proof.
  intros Hm Hk st. unfold mbind. specialize (Hm st).
  destruct (m st) as [[a|e] st1]; simpl in *; [|done].
  by rewrite Hk.
Qed.

Lemma preserves_mfor {A} (f : A -> M unit) (l : list A) :
  (forall x, preserves_heap (f x)) -> preserves_heap (mfor f l).
Proof.
  intros Hf. induction l as [|x l IH]; simpl; [apply preserves_mret|].
  apply preserves_mbind; [apply Hf | by intros _].
Qed.

Lemma preserves_load_performance ref : preserves_heap (load_performance ref).
Proof.
  apply preserves_mbind; [apply preserves_load|].
  intros [p|df]; [apply preserves_mret | apply preserves_raise].
Qed.

Ltac preserves :=
  repeat first
    [ apply preserves_load_performance
    | apply preserves_emit
    | apply preserves_lift
    | apply preserves_mret
    | apply preserves_raise
    | apply preserves_mfor; intros ?
    | apply preserves_mbind; [|intros ?] ].

Lemma revenue_bar_chart_preserves w revenue_data output_path :
  preserves_heap (_create_revenue_bar_chart w revenue_data output_path).
Proof.
  unfold _create_revenue_bar_chart. preserves.
  match goal with x : (_ * _)%type |- _ => destruct x end. preserves.
Qed.

Lemma ctr_conversion_scatter_preserves w ctr_data conversion_rate_data output_path :
  preserves_heap (_create_ctr_conversion_scatter w ctr_data conversion_rate_data output_path).
Proof.
  unfold _create_ctr_conversion_scatter. preserves.
  match goal with x : (_ * _)%type |- _ => destruct x end. preserves.
Qed.

(** The charts of the campaign metrics read the dictionary they are given
    and leave every object unchanged. *)
Lemma create_performance_charts_preserves w performance_data output_folder :
  preserves_heap (create_performance_charts w performance_data output_folder).
Proof.
  unfold create_performance_charts.
  apply preserves_mbind; [apply preserves_emit | intros _].
  apply preserves_mbind; [apply preserves_emit | intros _].
  apply preserves_mbind; [apply preserves_load_performance | intros p].
  apply preserves_mbind; [apply revenue_bar_chart_preserves | intros _].
  apply preserves_mbind; [apply preserves_load_performance | intros p'].
  apply ctr_conversion_scatter_preserves.
Qed.

Lemma preserves_load_daily ref : preserves_heap (load_daily ref).
Proof.
  apply preserves_mbind; [apply preserves_load|].
  intros [p|df]; [apply preserves_raise | apply preserves_mret].
Qed.

Lemma plot_platform_lines_preserves w performance_data output_path :
  preserves_heap (plot_platform_lines w performance_data output_path).
Proof.
  unfold plot_platform_lines.
  apply preserves_mbind; [|intros _; preserves].
  apply preserves_mfor. intros metric.
  apply preserves_mbind; [apply preserves_load_daily | intros df].
  apply preserves_mbind; [apply preserves_lift | intros _].
  apply preserves_mfor. intros platform.
  apply preserves_mbind; [apply preserves_load_daily | intros df'].
  preserves.
Qed.

(** What the platform comparison chart does to the frame it is given: when
    it returns, the object holds the same frame with the Date cells replaced
    by their datetimes. *)
Lemma create_platform_comparison_effect w performance_data output_path df st st' :
  heap st !! performance_data = Some (DailyFrame df) ->
  create_platform_comparison w performance_data output_path st = (Ok tt, st') ->
  exists dates,
    to_datetime_column w (Daily.rows df) = Ok dates /\
    heap st' !! performance_data =
      Some (DailyFrame {| Daily.columns := Daily.columns df;
                          Daily.rows := assign_dates (Daily.rows df) dates |}).
Proof.
  intros Hobj. unfold create_platform_comparison, mbind at 1. simpl.
  unfold mbind at 1, convert_dates, mbind at 1, load_daily, mbind at 1, load. simpl.
  rewrite Hobj. simpl. unfold mbind at 1, lift.
  destruct (Daily.getitem "Date" df) as [[]|e]; [|discriminate].
  unfold mbind at 1.
  destruct (to_datetime_column w (Daily.rows df)) as [dates|e]; [|discriminate].
  unfold store. intros Hrest. exists dates. split; [done|].
  match type of Hrest with plot_platform_lines _ _ _ ?s = _ =>
    pose proof (plot_platform_lines_preserves w performance_data output_path s) as Hp
  end.
  rewrite Hrest in Hp. simpl in Hp. rewrite Hp. apply lookup_insert_eq.
Qed.

(** C8. One run over a file of two records, dates as text: the daily frame
    that the aggregation returned has the dates as text; after the platform
    comparison chart has been drawn the same object has them as datetimes.
    The chart changed the frame it was given. *)
Theorem platform_comparison_rewrites_dates :
  exists st' d',
    analyze_platform_performance csv_frame = Ok csv_daily /\
    run_analysis sample_world sample_config initial_state = (Ok tt, st') /\
    heap st' !! 1%nat = Some (DailyFrame d') /\
    map Daily.Date (Daily.rows csv_daily) =
      [DateStr "2024-01-01"; DateStr "2024-01-01"] /\
    map Daily.Date (Daily.rows d') = [Timestamp 738886; Timestamp 738886] /\
    d' <> csv_daily.
Proof.
  eexists _, _. split; [vm_compute; reflexivity|].
  split; [vm_compute; reflexivity|].
  split; [vm_compute; reflexivity|].
  split; [reflexivity|]. split; [reflexivity|].
  intros H. discriminate.
Qed.

(** * Further properties of the code *)

(** ** Group labels: ascending and distinct *)

Section KeyOrder.
Context {K : Type} (cmp : K -> K -> comparison).
Hypothesis cmp_eq : forall x y, cmp x y = Eq <-> x = y.
Hypothesis cmp_antisym : forall x y, cmp x y = CompOpp (cmp y x).
Hypothesis cmp_trans : forall x y z, cmp x y = Lt -> cmp y z = Lt -> cmp x z = Lt.

Lemma insert_key_ascending k ks :
  StronglySorted (ascending cmp) ks ->
  StronglySorted (ascending cmp) (insert_key cmp k ks).
Proof.
  induction 1 as [|k' ks Hks IH Hk']; simpl.
  - repeat constructor.
  - destruct (cmp k k') eqn:E.
    + by constructor.
    + constructor; [by constructor|]. constructor; [done|].
      eapply Forall_impl; [exact Hk'|]. intros z Hz. by eapply cmp_trans.
    + constructor; [done|]. apply Forall_forall. intros z Hz.
      apply list_elem_of_In, (insert_key_In cmp cmp_eq) in Hz as [-> | Hz].
      * unfold ascending. rewrite cmp_antisym, E. done.
      * rewrite Forall_forall in Hk'. by apply Hk', list_elem_of_In.
Qed.

Lemma group_keys_ascending key rs :
  StronglySorted (ascending cmp) (group_keys cmp key rs).
Proof.
  induction rs as [|r rs IH]; simpl; [constructor|].
  destruct (key r); [by apply insert_key_ascending | done].
Qed.

Lemma ascending_NoDup ks : StronglySorted (ascending cmp) ks -> NoDup ks.
Proof.
  induction 1 as [|k ks Hks IH Hk]; constructor; [|done].
  intros Hin. rewrite Forall_forall in Hk. specialize (Hk k Hin).
  unfold ascending in Hk. by rewrite (proj2 (cmp_eq k k) eq_refl) in Hk.
Qed.

Lemma group_keys_NoDup key rs : NoDup (group_keys cmp key rs).
Proof. apply ascending_NoDup, group_keys_ascending. Qed.
End KeyOrder.

Lemma string_compare_trans x y z :
  String.compare x y = Lt -> String.compare y z = Lt -> String.compare x z = Lt.
Proof.
  intros Hxy Hyz.
  apply OrderedTypeEx.String_as_OT.cmp_lt in Hxy, Hyz.
  apply OrderedTypeEx.String_as_OT.cmp_lt.
  eapply OrderedTypeEx.String_as_OT.lt_trans; eauto.
Qed.

Lemma date_compare_antisym a b : date_compare a b = CompOpp (date_compare b a).
Proof.
  destruct a, b; simpl; try done.
  - apply String.compare_antisym.
  - apply Z.compare_antisym.
Qed.

Lemma date_compare_trans a b c :
  date_compare a b = Lt -> date_compare b c = Lt -> date_compare a c = Lt.
Proof.
  destruct a, b, c; simpl; try done.
  - apply string_compare_trans.
  - rewrite !Z.compare_lt_iff. lia.
Qed.

Lemma date_platform_compare_antisym x y :
  date_platform_compare x y = CompOpp (date_platform_compare y x).
Proof.
  destruct x as [d p], y as [d' p']. unfold date_platform_compare, pair_compare. simpl.
  rewrite (date_compare_antisym d d').
  destruct (date_compare d' d); simpl; [apply String.compare_antisym | done | done].
Qed.

Lemma date_platform_compare_trans x y z :
  date_platform_compare x y = Lt -> date_platform_compare y z = Lt ->
  date_platform_compare x z = Lt.
Proof.
  destruct x as [d1 p1], y as [d2 p2], z as [d3 p3].
  unfold date_platform_compare, pair_compare. simpl.
  destruct (date_compare d1 d2) eqn:E12; [| |discriminate].
  - apply date_compare_eq in E12; subst d2.
    destruct (date_compare d1 d3) eqn:E13; [|done|discriminate].
    apply string_compare_trans.
  - destruct (date_compare d2 d3) eqn:E23; [| |discriminate].
    + apply date_compare_eq in E23; subst d3. by rewrite E12.
    + by rewrite (date_compare_trans _ _ _ E12 E23).
Qed.

(** ** Sorting: nothing is lost, NaN goes last *)

Section SortPermutation.
Context {K V : Type} (geb : V -> V -> bool) (isna : V -> bool).

Lemma insert_desc_Permutation x (l : Series K V) :
  insert_desc geb x l ≡ₚ x :: l.
Proof.
  induction l as [|y l IH]; simpl; [done|].
  destruct (geb (snd x) (snd y)); [done|]. rewrite IH. apply Permutation_swap.
Qed.

Lemma insertion_sort_Permutation (l : Series K V) :
  fold_right (insert_desc geb) [] l ≡ₚ l.
Proof.
  induction l as [|x l IH]; simpl; [done|].
  by rewrite insert_desc_Permutation, IH.
Qed.

Lemma filter_split_Permutation {A} (p : A -> bool) (l : list A) :
  List.filter (fun x => negb (p x)) l ++ List.filter p l ≡ₚ l.
Proof.
  induction l as [|x l IH]; simpl; [done|].
  destruct (p x); simpl.
  - rewrite <- Permutation_middle. by rewrite IH.
  - by rewrite IH.
Qed.

Lemma sort_values_desc_Permutation (s : Series K V) :
  sort_values_desc geb isna s ≡ₚ s.
Proof.
  unfold sort_values_desc. rewrite insertion_sort_Permutation.
  apply (filter_split_Permutation (fun x => isna (snd x))).
Qed.

(** Sortedness needs the comparison to be total only on the values that
    are sorted. *)
Variable P : V -> Prop.
Hypothesis geb_total_on : forall x y, P x -> P y -> geb x y = false -> geb y x = true.

Lemma insert_desc_Sorted_on x (l : Series K V) :
  P (snd x) -> Forall (fun e => P (snd e)) l ->
  Sorted (desc geb) l -> Sorted (desc geb) (insert_desc geb x l).
Proof.
  intros Hx Hl Hs. induction Hs as [|z l Hs IH Hz]; simpl.
  - by repeat constructor.
  - apply Forall_cons in Hl as [Pz Hl].
    destruct (geb (snd x) (snd z)) eqn:E.
    + constructor; [by constructor | by constructor].
    + constructor; [by apply IH|].
      destruct l as [|w l]; simpl.
      * constructor. by apply geb_total_on.
      * destruct (geb (snd x) (snd w)); constructor.
        -- by apply geb_total_on.
        -- by inversion Hz.
Qed.

Lemma insert_desc_Forall (Q : K * V -> Prop) x (l : Series K V) :
  Q x -> Forall Q l -> Forall Q (insert_desc geb x l).
Proof.
  intros Hx Hl. rewrite insert_desc_Permutation. by constructor.
Qed.

Lemma insertion_sort_Sorted_on (l : Series K V) :
  Forall (fun e => P (snd e)) l ->
  Sorted (desc geb) (fold_right (insert_desc geb) [] l) /\
  Forall (fun e => P (snd e)) (fold_right (insert_desc geb) [] l).
Proof.
  induction 1 as [|x l Hx Hl [IHs IHf]]; simpl; [by split; constructor|].
  split.
  - by apply insert_desc_Sorted_on.
  - by apply insert_desc_Forall.
Qed.
End SortPermutation.

Lemma float_geb_le x y : float_geb x y = true <-> float_le y x.
Proof.
  destruct x as [p| | |], y as [q| | |]; simpl; try done.
  apply Qle_bool_iff.
Qed.

Lemma float_geb_total x y :
  isnan x = false -> isnan y = false -> float_geb x y = false -> float_geb y x = true.
Proof.
  destruct x as [p| | |], y as [q| | |]; simpl; try done.
  intros _ _. apply Q_geb_total.
Qed.

Lemma float_le_trans x y z : float_le x y -> float_le y z -> float_le x z.
Proof.
  destruct x as [p| | |], y as [q| | |], z as [r| | |]; simpl; try done.
  apply Qle_trans.
Qed.

Lemma filter_Forall {A} (p : A -> bool) (l : list A) :
  Forall (fun x => p x = true) (List.filter p l).
Proof. apply Forall_forall. intros x Hx. by apply list_elem_of_In, filter_In in Hx as [_ ?]. Qed.

(** The shape of a sorted float series. *)
Lemma sort_values_desc_float_shape {K} (s : Series K PyFloat) :
  exists numbers nans,
    sort_values_desc float_geb isnan s = numbers ++ nans /\
    Forall (fun e => snd e = NaN) nans /\
    Forall (fun e => snd e <> NaN) numbers /\
    StronglySorted (fun a b => float_le (snd b) (snd a)) numbers.
Proof.
  eexists _, _. split; [reflexivity|]. split; [|split].
  - eapply Forall_impl; [apply (filter_Forall (fun x => isnan (snd x)))|].
    intros [k v]. simpl. by destruct v.
  - pose proof (filter_Forall (fun x : K * PyFloat => negb (isnan (snd x))) s) as Hf.
    rewrite <- (insertion_sort_Permutation float_geb) in Hf.
    eapply Forall_impl; [exact Hf|]. intros [k v]. simpl. by destruct v.
  - apply Sorted_StronglySorted.
    { intros a b c Hab Hbc. eapply float_le_trans; eauto. }
    eapply Sorted_weaken;
      [|apply (insertion_sort_Sorted_on float_geb (fun v => isnan v = false))].
    + intros a b H. by apply float_geb_le.
    + intros x y. apply float_geb_total.
    + eapply Forall_impl; [apply (filter_Forall (fun x => negb (isnan (snd x))))|].
      intros [k v]. simpl. by destruct v.
Qed.

(** ** Platform metrics and labels *)

Lemma index_groupby_agg {K V} (cmp : K -> K -> comparison) key
    (agg : list CampaignRecord -> V) rs :
  index (groupby_agg cmp key agg rs) = group_keys cmp key rs.
Proof.
  unfold index, groupby_agg. rewrite map_map. simpl. apply map_id.
Qed.

Lemma index_campaign_ratio num den rs :
  index (campaign_ratio num den rs) = group_keys String.compare Campaign rs.
Proof.
  unfold index, campaign_ratio. rewrite map_map. simpl. apply map_id.
Qed.

Lemma index_sort_values_desc {K V} (geb : V -> V -> bool) isna (s : Series K V) :
  index (sort_values_desc geb isna s) ≡ₚ index s.
Proof. unfold index. apply Permutation_map, sort_values_desc_Permutation. Qed.



(** X2. The three campaign series carry the same labels, each campaign
    that occurs exactly once: sorting by value reorders the entries and
    neither drops nor repeats one. *)
Theorem campaign_series_labels (df : DataFrame) (perf : PerformanceData) :
  analyze_campaign_performance df = Ok perf ->
  NoDup (index (revenue perf)) /\
  index (ctr perf) ≡ₚ index (revenue perf) /\
  index (conversion_rate perf) ≡ₚ index (revenue perf) /\
  (forall c, In c (index (revenue perf)) <->
     exists r, In r (rows df) /\ Campaign r = Some c) /\
  length (revenue perf) = length (ctr perf) /\
  length (revenue perf) = length (conversion_rate perf).
Proof.
  intros Hok.
  pose proof (analyze_campaign_performance_Ok_inv _ _ Hok) as Hreq.
  rewrite (analyze_campaign_performance_ok _ Hreq) in Hok. injection Hok as <-. simpl.
  assert (Hrev : index (sort_values_desc Q_geb (fun _ => false)
                   (groupby_agg String.compare Campaign (sum_Q Revenue) (rows df)))
                 ≡ₚ group_keys String.compare Campaign (rows df))
    by (by rewrite index_sort_values_desc, index_groupby_agg).
  assert (Hratio : forall num den,
            index (sort_values_desc float_geb isnan (campaign_ratio num den (rows df)))
            ≡ₚ group_keys String.compare Campaign (rows df))
    by (intros; by rewrite index_sort_values_desc, index_campaign_ratio).
  split; [|split; [|split; [|split; [|split]]]].
  - rewrite Hrev. apply group_keys_NoDup;
      [apply string_compare_eq | apply String.compare_antisym | apply string_compare_trans].
  - by rewrite Hrev, Hratio.
  - by rewrite Hrev, Hratio.
  - intros c. rewrite <- (group_keys_In _ string_compare_eq).
    split; intros H; apply list_elem_of_In; apply list_elem_of_In in H;
      [by rewrite <- Hrev | by rewrite Hrev].
  - rewrite !sort_values_desc_length. unfold groupby_agg, campaign_ratio.
    by rewrite !length_map.
  - rewrite !sort_values_desc_length. unfold groupby_agg, campaign_ratio.
    by rewrite !length_map.
Qed.

Lemma campaign_series_labels_witness :
  NoDup (index (revenue test_performance)) /\
  index (ctr test_performance) ≡ₚ index (revenue test_performance).
Proof.
  destruct (campaign_series_labels test_dataframe test_performance) as (Hnd & Hp & _).
  - vm_compute. reflexivity.
  - split; [exact Hnd | exact Hp].
Defined.

(** X3. The CTR and conversion-rate series are in non-increasing order of
    their value, an infinity included, and the entries whose ratio is NaN
    come after all others. *)
Theorem campaign_ratios_sorted_nan_last (df : DataFrame) (perf : PerformanceData) :
  analyze_campaign_performance df = Ok perf ->
  forall s, s = ctr perf \/ s = conversion_rate perf ->
  exists numbers nans,
    s = numbers ++ nans /\
    Forall (fun e => snd e = NaN) nans /\
    Forall (fun e => snd e <> NaN) numbers /\
    StronglySorted (fun a b => float_le (snd b) (snd a)) numbers.
Proof.
  intros Hok s Hs.
  pose proof (analyze_campaign_performance_Ok_inv _ _ Hok) as Hreq.
  rewrite (analyze_campaign_performance_ok _ Hreq) in Hok. injection Hok as <-.
  simpl in Hs. destruct Hs as [-> | ->]; apply sort_values_desc_float_shape.
Qed.

Lemma campaign_ratios_sorted_nan_last_witness :
  exists perf numbers nans,
    analyze_campaign_performance zero_clicks_frame = Ok perf /\
    ctr perf = numbers ++ nans /\
    Forall (fun e => snd e = NaN) nans /\
    Forall (fun e => snd e <> NaN) numbers /\
    StronglySorted (fun a b => float_le (snd b) (snd a)) numbers.
Proof.
  assert (Hok : exists perf, analyze_campaign_performance zero_clicks_frame = Ok perf)
    by (eexists; vm_compute; reflexivity).
  destruct Hok as (perf & Hok).
  destruct (campaign_ratios_sorted_nan_last zero_clicks_frame perf Hok (ctr perf))
    as (numbers & nans & H); [by left|].
  exists perf, numbers, nans. split; [exact Hok | exact H].
Defined.

(** ** Grouping conserves totals *)

Lemma sum_Z_from col rs a :
  fold_left (fun acc r => match col r with Some v => acc + v | None => acc end) rs a =
  a + sum_Z col rs.
Proof.
  unfold sum_Z. revert a. induction rs as [|r rs IH]; intros a; simpl; [lia|].
  rewrite IH, (IH (match col r with Some v => 0 + v | None => 0 end)).
  destruct (col r); lia.
Qed.

Lemma sum_Z_cons col r rs :
  sum_Z col (r :: rs) = match col r with Some v => v | None => 0 end + sum_Z col rs.
Proof.
  unfold sum_Z at 1. simpl. rewrite sum_Z_from. destruct (col r); lia.
Qed.

Lemma sum_Z_app col rs1 rs2 : sum_Z col (rs1 ++ rs2) = sum_Z col rs1 + sum_Z col rs2.
Proof.
  induction rs1 as [|r rs1 IH]; simpl; [done|]. rewrite !sum_Z_cons, IH. lia.
Qed.

Section Conservation.
Context {K : Type} `{EqDecision K}.

Lemma total_over_absent_keys (key : CampaignRecord -> option K) col ks r rs :
  (forall k, In k ks -> key r <> Some k) ->
  fold_right Z.add 0 (map (fun k => sum_Z col (records_where key k (r :: rs))) ks) =
  fold_right Z.add 0 (map (fun k => sum_Z col (records_where key k rs)) ks).
Proof.
  induction ks as [|k ks IH]; intros Hk; cbn [map fold_right]; [done|].
  rewrite IH by (intros k' Hk'; apply Hk; by right).
  f_equal. unfold records_where. cbn [List.filter].
  rewrite bool_decide_eq_false_2; [done|]. apply Hk. by left.
Qed.

Lemma total_over_keys (key : CampaignRecord -> option K) col ks rs :
  NoDup ks ->
  (forall r k, In r rs -> key r = Some k -> In k ks) ->
  fold_right Z.add 0 (map (fun k => sum_Z col (records_where key k rs)) ks) =
  sum_Z col (with_key key rs).
Proof.
  intros Hnd. induction rs as [|r rs IH]; intros Hks.
  - clear Hks. induction ks as [|k ks IHk]; cbn [map fold_right]; [done|].
    apply NoDup_cons in Hnd as [_ Hnd]. rewrite IHk by done. reflexivity.
  - specialize (IH (fun r' k Hr' => Hks r' k (or_intror Hr'))).
    unfold with_key in *. cbn [List.filter]. destruct (key r) as [k0|] eqn:E.
    + rewrite sum_Z_cons, <- IH. clear IH.
      assert (Hin : In k0 ks) by (eapply Hks; [by left | done]).
      clear Hks. induction ks as [|k ks IHk]; [done|].
      apply NoDup_cons in Hnd as [Hk Hnd]. cbn [map fold_right].
      destruct (decide (k = k0)) as [-> | Hne].
      * rewrite total_over_absent_keys.
        { unfold records_where at 1. cbn [List.filter].
          rewrite E, bool_decide_eq_true_2 by done.
          rewrite sum_Z_cons. unfold records_where. lia. }
        intros k' Hk' Heq. rewrite E in Heq. injection Heq as <-.
        apply Hk. by apply list_elem_of_In.
      * destruct Hin as [Hin | Hin]; [done|].
        rewrite IHk by done.
        unfold records_where at 1. cbn [List.filter]. rewrite E.
        rewrite bool_decide_eq_false_2 by congruence.
        unfold records_where. lia.
    + rewrite <- IH. apply total_over_absent_keys. intros k _. by rewrite E.
Qed.
End Conservation.

Lemma series_total_groupby {K} `{EqDecision K} (cmp : K -> K -> comparison)
    (key : CampaignRecord -> option K) col rs :
  (forall x y, cmp x y = Eq <-> x = y) ->
  (forall x y, cmp x y = CompOpp (cmp y x)) ->
  (forall x y z, cmp x y = Lt -> cmp y z = Lt -> cmp x z = Lt) ->
  series_total (groupby_agg cmp key (sum_Z col) rs) = sum_Z col (with_key key rs).
Proof.
  intros Heq Hanti Htrans. unfold series_total, groupby_agg. rewrite map_map.
  cbn [snd].
  rewrite <- (total_over_keys key col (group_keys cmp key rs) rs).
  - f_equal. apply map_ext. intros k. by rewrite (group_records_where cmp Heq).
  - by apply group_keys_NoDup.
  - intros r k Hr Hk. apply (group_keys_In cmp Heq). eauto.
Qed.



(** ** The daily frame *)



(** ** The platform aggregation without its columns *)

Lemma has_column_false name df : name ∉ columns df -> has_column name df = false.
Proof. intros H. unfold has_column. by apply bool_decide_eq_false_2. Qed.



(** ** Ratios of sane counts *)

Lemma sum_Z_bounds num den rs :
  (forall r, In r rs -> exists a b, num r = Some a /\ den r = Some b /\ 0 <= a <= b) ->
  0 <= sum_Z num rs <= sum_Z den rs.
Proof.
  induction rs as [|r rs IH]; intros H; [done|].
  rewrite !sum_Z_cons.
  destruct (H r) as (a & b & -> & -> & Hab); [by left|].
  specialize (IH (fun r' Hr' => H r' (or_intror Hr'))). lia.
Qed.

Lemma true_divide_unit a b :
  0 <= a <= b -> 0 < b ->
  exists q, true_divide a b = Fin q /\ (0 <= q)%Q /\ (q <= 1)%Q.
Proof.
  intros Hab Hb. unfold true_divide.
  rewrite (proj2 (Z.eqb_neq b 0)) by lia. eexists. split; [reflexivity|].
  destruct b as [|b|b]; try lia.
  unfold Qdiv, Qinv, Qmult, Qle, inject_Z. simpl. lia.
Qed.



(** ** The simulator: what a record holds *)

Lemma for_each_In {A B} (f : A -> Rand B) (l : list A) (st : RandomState) (b : B) :
  In b (fst (for_each f l st)) -> exists x st', In x l /\ b = fst (f x st').
Proof.
  intros Hb. pose proof (for_each_Forall2 f l st) as H.
  induction H as [|x y l k Hxy _ IH]; [done|].
  destruct Hb as [<- | Hb].
  - destruct Hxy as (st' & ->). exists x, st'. split; [by left | done].
  - destruct (IH Hb) as (x' & st' & Hx' & ->). exists x', st'. split; [by right | done].
Qed.

Lemma range_In lo hi i : In i (range lo hi) <-> lo <= i < hi.
Proof.
  unfold range. rewrite in_map_iff. split.
  - intros (k & <- & Hk). apply in_seq in Hk. lia.
  - intros Hi. exists (Z.to_nat (i - lo)). split; [lia|]. apply in_seq. lia.
Qed.

Lemma uniform_bounds (a b : Q) st :
  (a <= b)%Q -> (a <= fst (uniform a b st))%Q /\ (fst (uniform a b st) <= b)%Q.
Proof.
  intros Hab. unfold uniform, bind, next_draw, ret. simpl.
  set (m := Z.of_N (draws st (cursor st) mod 2 ^ 53)).
  assert (Hm : 0 <= m < 9007199254740992).
  { unfold m. change (2 ^ 53)%N with 9007199254740992%N.
    pose proof (N.mod_lt (draws st (cursor st)) 9007199254740992 ltac:(done)) as H.
    split; [apply N2Z.is_nonneg|]. apply N2Z.inj_lt in H. exact H. }
  change (2 ^ 53)%positive with 9007199254740992%positive.
  assert (Hu0 : (0 <= m # 9007199254740992)%Q) by (unfold Qle; simpl; lia).
  assert (Hu1 : (m # 9007199254740992 <= 1)%Q) by (unfold Qle; simpl; lia).
  assert (Hd : (0 <= b - a)%Q) by (by apply Qle_minus_iff in Hab).
  split.
  - rewrite <- (Qplus_0_r a) at 1. apply Qplus_le_r.
    by apply Qmult_le_0_compat.
  - apply Qle_trans with (a + (b - a) * 1)%Q.
    + apply Qplus_le_r. rewrite !(Qmult_comm (b - a)).
      by apply Qmult_le_compat_r.
    + ring_simplify. apply Qle_refl.
Qed.

Lemma randint_bounds a b st : a <= b -> a <= fst (randint a b st) <= b.
Proof.
  intros Hab. unfold randint, bind, next_draw, ret. simpl.
  pose proof (Z.mod_pos_bound (Z.of_N (draws st (cursor st))) (b - a + 1)). lia.
Qed.

Lemma simulated_record_fields campaign platform day st :
  let r := fst (simulated_record campaign platform day st) in
  Date r = Some (Timestamp (start_date + day)) /\
  Campaign r = Some campaign /\
  Platform r = Some platform /\
  in_simulated_ranges r.
Proof.
  unfold simulated_record, bind at 1.
  destruct (uniform (1 # 100) (15 # 100) st) as [e st1] eqn:Ee.
  unfold bind at 1. destruct (randint 10000 1000000 st1) as [i st2] eqn:Ei.
  unfold bind at 1. destruct (randint 100 10000 st2) as [k st3] eqn:Ek.
  unfold bind at 1. destruct (randint 10 1000 st3) as [n st4] eqn:En.
  unfold bind at 1. destruct (uniform (1000 # 1) (10000 # 1) st4) as [v st5] eqn:Ev.
  cbn. repeat split.
  exists e, i, k, n, v.
  pose proof (uniform_bounds (1 # 100) (15 # 100) st ltac:(done)) as He.
  pose proof (randint_bounds 10000 1000000 st1 ltac:(done)) as Hi.
  pose proof (randint_bounds 100 10000 st2 ltac:(done)) as Hk.
  pose proof (randint_bounds 10 1000 st3 ltac:(done)) as Hn.
  pose proof (uniform_bounds (1000 # 1) (10000 # 1) st4 ltac:(done)) as Hv.
  rewrite Ee in He. rewrite Ei in Hi. rewrite Ek in Hk. rewrite En in Hn.
  rewrite Ev in Hv. simpl in He, Hi, Hk, Hn, Hv.
  unfold uniform, randint, bind, next_draw, ret in Ee, Ei, Ek, En, Ev.
  simpl in Ee, Ei, Ek, En, Ev.
  injection Ee as <- <-. injection Ei as <- <-. injection Ek as <- <-.
  injection En as <- <-. injection Ev as <- <-.
  repeat split; try reflexivity; try tauto; lia.
Qed.

Lemma simulated_rows_unfold num_campaigns num_days st r :
  In r (rows (fst (generate_simulated_data num_campaigns num_days st))) ->
  exists campaign platform day st',
    In campaign (fst (generate_campaign_names num_campaigns st)) /\
    In platform platforms /\ 0 <= day < num_days /\
    r = fst (simulated_record campaign platform day st').
Proof.
  unfold generate_simulated_data, bind.
  destruct (generate_campaign_names num_campaigns st) as [campaigns st1].
  destruct (for_each _ campaigns st1) as [data st2] eqn:E. simpl.
  rewrite rows_frame_of_records. intros Hr.
  apply in_concat in Hr as (days & Hdays & Hr).
  apply in_concat in Hdays as (block & Hblock & Hdays).
  replace data with (fst (for_each
    (fun campaign =>
       for_each
         (fun platform =>
            for_each (fun day => simulated_record campaign platform day)
              (range 0 num_days)) platforms) campaigns st1)) in Hblock
    by (by rewrite E).
  apply for_each_In in Hblock as (campaign & sta & Hc & ->).
  apply for_each_In in Hdays as (platform & stb & Hp & ->).
  apply for_each_In in Hr as (day & stc & Hd & ->).
  apply range_In in Hd. exists campaign, platform, day, stc. repeat split; try done; lia.
Qed.

Lemma simulated_rows_in_ranges (num_campaigns num_days : Z) (st : RandomState)
    (r : CampaignRecord) :
  In r (rows (fst (generate_simulated_data num_campaigns num_days st))) ->
  in_simulated_ranges r.
Proof.
  intros Hr.
  apply simulated_rows_unfold in Hr as (campaign & platform & day & st' & _ & _ & _ & ->).
  by destruct (simulated_record_fields campaign platform day st') as (_ & _ & _ & HR).
Qed.

(** X8. Every record of the simulated frame has all eight cells: a date of
    the [num_days] days from 1 January 2024, one of the generated campaign
    names, Facebook or Instagram, and values inside the ranges the simulator
    draws from; so its Clicks never exceed its Impressions. *)
Theorem simulated_record_ranges (num_campaigns num_days : Z) (st : RandomState)
    (r : CampaignRecord) :
  In r (rows (fst (generate_simulated_data num_campaigns num_days st))) ->
  (exists day, 0 <= day < num_days /\ Date r = Some (Timestamp (738886 + day))) /\
  (exists campaign, In campaign (fst (generate_campaign_names num_campaigns st)) /\
                    Campaign r = Some campaign) /\
  (Platform r = Some "Facebook" \/ Platform r = Some "Instagram") /\
  in_simulated_ranges r /\
  (forall k i, Clicks r = Some k -> Impressions r = Some i -> k <= i).
Proof.
  intros Hr.
  apply simulated_rows_unfold in Hr as (campaign & platform & day & st' & Hc & Hp & Hd & ->).
  destruct (simulated_record_fields campaign platform day st') as (HD & HC & HP & HR).
  split; [by exists day|]. split; [by exists campaign|]. split.
  - rewrite HP. simpl in Hp. destruct Hp as [<- | [<- | []]]; auto.
  - split; [done|]. intros k i Hk Hi.
    destruct HR as (e & i' & k' & n & v & _ & Hi' & Hk' & _ & _ & _ & _ & ? & ? & _).
    rewrite Hk in Hk'. rewrite Hi in Hi'. injection Hk' as <-. injection Hi' as <-. lia.
Qed.

Lemma simulated_record_ranges_witness :
  exists r,
    In r (rows (fst (generate_simulated_data 1 1 seed0))) /\
    in_simulated_ranges r /\
    (Platform r = Some "Facebook" \/ Platform r = Some "Instagram").
Proof.
  assert (Hrows : exists r rs, rows (fst (generate_simulated_data 1 1 seed0)) = r :: rs)
    by (vm_compute; eauto).
  destruct Hrows as (r & rs & Hrows).
  assert (Hr : In r (rows (fst (generate_simulated_data 1 1 seed0))))
    by (rewrite Hrows; left; reflexivity).
  exists r. split; [exact Hr|].
  destruct (simulated_record_ranges 1 1 seed0 r Hr) as (_ & _ & Hp & Hrange & _).
  split; [exact Hrange | exact Hp].
Defined.

(** ** The simulator and the aggregations *)

Lemma simulated_rows_empty num_campaigns num_days st :
  num_campaigns <= 0 \/ num_days <= 0 ->
  fst (generate_simulated_data num_campaigns num_days st) = empty_frame.
Proof.
  intros Hzero.
  pose proof (generated_blocks num_campaigns num_days st) as H.
  pose proof (generate_campaign_names_length num_campaigns st) as Hn.
  destruct (generate_campaign_names num_campaigns st) as [campaigns st1].
  destruct H as (data & st2 & -> & Hblocks). simpl in *.
  pose proof (blocks_row_count _ _ _ Hblocks) as Hlen. rewrite Hn in Hlen.
  destruct (List.concat (List.concat data)); [done|]. simpl in Hlen. lia.
Qed.

(** X9. A simulation of no campaign or no day gives the frame without any
    column, not one with the eight columns and no row: the campaign
    aggregation rejects it with the error that names all seven required
    columns, and the platform aggregation with [KeyError] on Date. *)
Theorem empty_simulation_has_no_columns (num_campaigns num_days : Z)
    (st : RandomState) :
  num_campaigns <= 0 \/ num_days <= 0 ->
  let df := fst (generate_simulated_data num_campaigns num_days st) in
  columns df = [] /\ rows df = [] /\
  (exists names,
     analyze_campaign_performance df = Raise (mkExc ValueError (missing_message names)) /\
     NoDup names /\ forall c, c ∈ names <-> c ∈ required_columns) /\
  analyze_platform_performance df = Raise (mkExc KeyError "Date").
Proof.
  intros Hzero df. unfold df. rewrite (simulated_rows_empty _ _ _ Hzero).
  split; [done|]. split; [done|]. split; [|done].
  exists (elements (missing_columns empty_frame)).
  split; [done|]. split; [apply NoDup_elements|].
  intros c. rewrite elem_of_elements. unfold missing_columns. simpl. set_solver.
Qed.

Lemma empty_simulation_has_no_columns_witness :
  columns (fst (generate_simulated_data 5 0 seed0)) = [] /\
  analyze_platform_performance (fst (generate_simulated_data 5 0 seed0)) =
    Raise (mkExc KeyError "Date").
Proof.
  destruct (empty_simulation_has_no_columns 5 0 seed0) as (Hc & _ & _ & Hp); [lia|].
  split; [exact Hc | exact Hp].
Defined.

Lemma for_each_In_inv {A B} (f : A -> Rand B) (l : list A) (st : RandomState) (x : A) :
  In x l -> exists st', In (fst (f x st')) (fst (for_each f l st)).
Proof.
  intros Hx. pose proof (for_each_Forall2 f l st) as H.
  induction H as [|x0 y l k Hxy _ IH]; [done|].
  destruct Hx as [-> | Hx].
  - destruct Hxy as (st' & ->). exists st'. by left.
  - destruct (IH Hx) as (st' & Hin). exists st'. by right.
Qed.

Lemma simulated_rows_cover num_campaigns num_days st campaign platform day :
  In campaign (fst (generate_campaign_names num_campaigns st)) ->
  In platform platforms -> 0 <= day < num_days ->
  exists st', In (fst (simulated_record campaign platform day st'))
                 (rows (fst (generate_simulated_data num_campaigns num_days st))).
Proof.
  unfold generate_simulated_data, bind.
  destruct (generate_campaign_names num_campaigns st) as [campaigns st1].
  destruct (for_each _ campaigns st1) as [data st2] eqn:E. simpl.
  rewrite rows_frame_of_records. intros Hc Hp Hd.
  destruct (for_each_In_inv
    (fun campaign =>
       for_each
         (fun platform =>
            for_each (fun day => simulated_record campaign platform day)
              (range 0 num_days)) platforms) campaigns st1 campaign Hc) as (sta & Hblock).
  rewrite E in Hblock. simpl in Hblock.
  destruct (for_each_In_inv
    (fun platform =>
       for_each (fun day => simulated_record campaign platform day) (range 0 num_days))
    platforms sta platform Hp) as (stb & Hdays).
  destruct (for_each_In_inv (fun day => simulated_record campaign platform day)
              (range 0 num_days) stb day) as (stc & Hr); [by apply range_In|].
  exists stc. apply in_concat. eexists. split; [|exact Hr].
  apply in_concat. eexists. split; [exact Hblock | exact Hdays].
Qed.

Lemma simulated_columns num_campaigns num_days st :
  1 <= num_campaigns -> 1 <= num_days ->
  columns (fst (generate_simulated_data num_campaigns num_days st)) =
    ["Date"; "Campaign"; "Platform"; "Engagement_Rate"; "Impressions"; "Clicks";
     "Conversions"; "Revenue"].
Proof.
  intros Hn Hd.
  pose proof (generated_blocks num_campaigns num_days st) as H.
  pose proof (generate_campaign_names_length num_campaigns st) as Hlen.
  destruct (generate_campaign_names num_campaigns st) as [campaigns st1].
  destruct H as (data & st2 & -> & Hblocks). simpl in *.
  pose proof (blocks_row_count _ _ _ Hblocks) as Hrows. rewrite Hlen in Hrows.
  destruct (List.concat (List.concat data)); [simpl in Hrows; lia | done].
Qed.

Lemma NoDup_same_length {A} (l k : list A) :
  NoDup l -> NoDup k -> (forall x, In x l <-> In x k) -> length l = length k.
Proof.
  intros Hl Hk Hlk. apply Permutation_length, NoDup_Permutation; [done | done|].
  intros x. rewrite !list_elem_of_In. apply Hlk.
Qed.

Lemma list_prod_NoDup {A B} (l : list A) (k : list B) :
  NoDup l -> NoDup k -> NoDup (list_prod l k).
Proof.
  intros Hl Hk. induction Hl as [|x l Hx Hl IH]; simpl; [constructor|].
  apply NoDup_app. split; [|split; [|done]].
  - apply NoDup_fmap_2; [|done]. by intros y z [=].
  - intros [a b] Hin Hin'. apply list_elem_of_In, in_map_iff in Hin as (y & [= <- <-] & _).
    apply list_elem_of_In, in_prod_iff in Hin' as [Hin' _].
    by apply Hx, list_elem_of_In.
Qed.

Lemma simulated_keys_NoDup num_days : NoDup (simulated_keys num_days).
Proof.
  unfold simulated_keys. apply list_prod_NoDup.
  - apply NoDup_fmap_2.
    + intros x y [=]. lia.
    + unfold range. apply NoDup_fmap_2; [|apply NoDup_seq]. intros x y. lia.
  - apply (bool_decide_eq_true_1 _). vm_compute. reflexivity.
Qed.

Lemma simulated_has_required_columns num_campaigns num_days st :
  1 <= num_campaigns -> 1 <= num_days ->
  has_required_columns (fst (generate_simulated_data num_campaigns num_days st)) /\
  daily_columns_present (fst (generate_simulated_data num_campaigns num_days st)).
Proof.
  intros Hn Hd. unfold has_required_columns, daily_columns_present.
  rewrite (simulated_columns _ _ st Hn Hd). split.
  - apply (bool_decide_eq_true_1 _). vm_compute. reflexivity.
  - intros n Hin.
    repeat (apply elem_of_cons in Hin as [-> | Hin];
            [apply (bool_decide_eq_true_1 _); vm_compute; reflexivity|]).
    by apply elem_of_nil in Hin.
Qed.

Lemma simulated_date_platform num_campaigns num_days st k :
  1 <= num_campaigns ->
  (exists r, In r (rows (fst (generate_simulated_data num_campaigns num_days st))) /\
             date_platform r = Some k) <->
  In k (simulated_keys num_days).
Proof.
  intros Hn. unfold simulated_keys. destruct k as [d p]. rewrite in_prod_iff, in_map_iff.
  split.
  - intros (r & Hr & Hk).
    apply simulated_rows_unfold in Hr as (c & p' & day & st' & Hc & Hp & Hd & ->).
    destruct (simulated_record_fields c p' day st') as (HD & _ & HP & _).
    unfold date_platform in Hk. rewrite HD, HP in Hk. injection Hk as <- <-.
    split; [|done]. exists day. split; [done | by apply range_In].
  - intros [(day & <- & Hday) Hp]. apply range_In in Hday.
    assert (Hc : exists c, In c (fst (generate_campaign_names num_campaigns st))).
    { pose proof (generate_campaign_names_length num_campaigns st) as Hlen.
      destruct (fst (generate_campaign_names num_campaigns st)) as [|c l].
      - simpl in Hlen. lia.
      - exists c. by left. }
    destruct Hc as (c & Hc).
    destruct (simulated_rows_cover num_campaigns num_days st c p day Hc Hp Hday)
      as (st' & Hin).
    eexists. split; [exact Hin|].
    destruct (simulated_record_fields c p day st') as (HD & _ & HP & _).
    unfold date_platform. by rewrite HD, HP.
Qed.



Lemma sum_Z_nonneg col rs :
  (forall r, In r rs -> exists v, col r = Some v /\ 0 < v) -> 0 <= sum_Z col rs.
Proof.
  induction rs as [|r rs IH]; intros H; [done|]. rewrite sum_Z_cons.
  destruct (H r) as (v & -> & Hv); [by left|].
  specialize (IH (fun r' Hr' => H r' (or_intror Hr'))). lia.
Qed.

Lemma sum_Z_positive col rs :
  rs <> [] -> (forall r, In r rs -> exists v, col r = Some v /\ 0 < v) -> 0 < sum_Z col rs.
Proof.
  intros Hne H. destruct rs as [|r rs]; [done|].
  rewrite sum_Z_cons. destruct (H r) as (v & -> & Hv); [by left|].
  pose proof (sum_Z_nonneg col rs (fun r' Hr' => H r' (or_intror Hr'))). lia.
Qed.

Lemma records_where_In {K} `{EqDecision K} (key : CampaignRecord -> option K) k rs r :
  In r (records_where key k rs) <-> In r rs /\ key r = Some k.
Proof. unfold records_where. rewrite filter_In, bool_decide_eq_true. done. Qed.

Lemma simulated_group_ratio {K} `{EqDecision K} num_campaigns num_days st
    (key : CampaignRecord -> option K) k :
  (exists r, In r (rows (fst (generate_simulated_data num_campaigns num_days st))) /\
             key r = Some k) ->
  let g := records_where key k
             (rows (fst (generate_simulated_data num_campaigns num_days st))) in
  exists q, true_divide (sum_Z Clicks g) (sum_Z Impressions g) = Fin q /\
            (0 <= q)%Q /\ (q <= 1)%Q.
Proof.
  intros (r0 & Hr0 & Hk0) g.
  assert (Hg : forall r, In r g -> in_simulated_ranges r).
  { intros r Hr. apply records_where_In in Hr as [Hr _].
    by apply simulated_rows_in_ranges in Hr. }
  apply true_divide_unit.
  - apply sum_Z_bounds. intros r Hr.
    destruct (Hg r Hr) as (e & i & c & n & v & _ & Hi & Hc & _ & _ & _ & _ & ? & ? & _).
    exists c, i. repeat split; try done; lia.
  - apply sum_Z_positive.
    + intros Hnil. assert (Hin : In r0 g) by (by apply records_where_In).
      rewrite Hnil in Hin. destruct Hin.
    + intros r Hr.
      destruct (Hg r Hr) as (e & i & c & n & v & _ & Hi & _ & _ & _ & _ & _ & ? & _).
      exists i. split; [done | lia].
Qed.

(** X11. On simulated data no CTR is undefined: per campaign and per day
    and platform the CTR is a finite number between 0 and 1. *)
Theorem simulated_ctr_within_unit (num_campaigns num_days : Z) (st : RandomState)
    (perf : PerformanceData) (daily : Daily.Frame) :
  let df := fst (generate_simulated_data num_campaigns num_days st) in
  analyze_campaign_performance df = Ok perf ->
  analyze_platform_performance df = Ok daily ->
  (forall c v, In (c, v) (ctr perf) ->
     exists q, v = Fin q /\ (0 <= q)%Q /\ (q <= 1)%Q) /\
  (forall row, In row (Daily.rows daily) ->
     exists q, Daily.CTR row = Fin q /\ (0 <= q)%Q /\ (q <= 1)%Q).
Proof.
  intros df Hperf Hdaily.
  pose proof (analyze_campaign_performance_Ok_inv _ _ Hperf) as Hreq.
  rewrite (analyze_campaign_performance_ok _ Hreq) in Hperf. injection Hperf as <-.
  pose proof (analyze_platform_performance_Ok_inv _ _ Hdaily) as Hcols.
  rewrite (analyze_platform_performance_ok _ Hcols) in Hdaily. injection Hdaily as <-.
  cbn [ctr Daily.rows]. split.
  - intros c v Hin. apply sort_values_desc_In, campaign_ratio_In in Hin as [Hex ->].
    by apply (simulated_group_ratio num_campaigns num_days st Campaign c).
  - intros row Hin. apply in_map_iff in Hin as (k & <- & Hk).
    apply (group_keys_In _ date_platform_compare_eq) in Hk.
    cbn [Daily.CTR daily_row].
    by apply (simulated_group_ratio num_campaigns num_days st date_platform k).
Qed.

Lemma simulated_ctr_within_unit_witness :
  exists perf daily,
    analyze_campaign_performance (fst (generate_simulated_data 1 1 seed0)) = Ok perf /\
    analyze_platform_performance (fst (generate_simulated_data 1 1 seed0)) = Ok daily /\
    (forall c v, In (c, v) (ctr perf) ->
       exists q, v = Fin q /\ (0 <= q)%Q /\ (q <= 1)%Q).
Proof.
  assert (H1 : exists perf,
            analyze_campaign_performance (fst (generate_simulated_data 1 1 seed0)) = Ok perf)
    by (eexists; vm_compute; reflexivity).
  assert (H2 : exists daily,
            analyze_platform_performance (fst (generate_simulated_data 1 1 seed0)) = Ok daily)
    by (eexists; vm_compute; reflexivity).
  destruct H1 as (perf & H1). destruct H2 as (daily & H2).
  exists perf, daily. split; [exact H1|]. split; [exact H2|].
  exact (proj1 (simulated_ctr_within_unit 1 1 seed0 perf daily H1 H2)).
Defined.

(** ** The simulator: the parts of a name *)

Lemma choice_In (l : list string) st : l <> [] -> In (fst (choice l st)) l.
Proof.
  intros Hne. unfold choice, bind, next_draw, ret. simpl.
  apply nth_In.
  assert (Hlen : N.of_nat (length l) <> 0%N) by (destruct l; [done | simpl; lia]).
  pose proof (N.mod_lt (draws st (cursor st)) _ Hlen). lia.
Qed.

(** X12. Every generated name is an adjective of the list, a space, a noun
    of the list, a space and the position of the name counted from one in
    the format [03d]; reading the number after the last space gives the
    position back. *)
Theorem generated_name_parts (num_campaigns : Z) (st : RandomState)
    (k : nat) (name : string) :
  fst (generate_campaign_names num_campaigns st) !! k = Some name ->
  exists adjective noun,
    In adjective adjectives /\ In noun nouns /\
    name = adjective +:+ " " +:+ noun +:+ " " +:+ format_03d (Z.of_nat k + 1) /\
    campaign_number name = Some (N.of_nat (k + 1)).
Proof.
  intros Hk. unfold generate_campaign_names in Hk.
  pose proof (for_each_Forall2
    (fun i => (a <- choice adjectives ;; n <- choice nouns ;;
               ret (campaign_name a n i))%rand)
    (range 1 (num_campaigns + 1)) st) as H.
  destruct (Forall2_lookup_r _ _ _ _ _ H Hk) as (i & Hi & st' & ->).
  unfold range in Hi. rewrite list_lookup_fmap in Hi.
  destruct (seq 0 _ !! k) as [j|] eqn:Hj; [|discriminate].
  apply lookup_seq in Hj as [-> _]. injection Hi as <-.
  exists (fst (choice adjectives st')), (fst (choice nouns (snd (choice adjectives st')))).
  split; [by apply choice_In|]. split; [by apply choice_In|].
  replace (1 + Z.of_nat k) with (Z.of_nat k + 1) by lia. split; [reflexivity|].
  change (campaign_number
            (campaign_name (fst (choice adjectives st'))
               (fst (choice nouns (snd (choice adjectives st')))) (Z.of_nat k + 1)) =
          Some (N.of_nat (k + 1))).
  rewrite campaign_number_name by lia. f_equal. lia.
Qed.

Lemma generated_name_parts_witness :
  exists adjective noun,
    In adjective adjectives /\ In noun nouns /\
    "Radiant Leap 002" = adjective +:+ " " +:+ noun +:+ " " +:+ format_03d (Z.of_nat 1 + 1) /\
    campaign_number "Radiant Leap 002" = Some (N.of_nat (1 + 1)).
Proof.
  apply (generated_name_parts 3 seed0 1 "Radiant Leap 002").
  vm_compute. reflexivity.
Defined.

(** ** The format of the index *)

Lemma length_zeros_append k s :
  String.length (zeros k +:+ s) = (k + String.length s)%nat.
Proof.
  induction k as [|k IH]; [done|].
  change (zeros (S k) +:+ s) with (String "0" (zeros k +:+ s)). simpl. by rewrite IH.
Qed.

Lemma format_03d_small (k : nat) :
  (k < 1000)%nat -> String.length (format_03d (Z.of_nat k)) = 3%nat.
Proof.
  intros Hk.
  assert (Hall : forallb (fun k => Nat.eqb (String.length (format_03d (Z.of_nat k))) 3)
                   (seq 0 1000) = true) by (vm_compute; reflexivity).
  rewrite forallb_forall in Hall. apply Nat.eqb_eq, Hall, in_seq. lia.
Qed.

(** X13. For a non-negative index the format [03d] gives at least three
    characters, exactly three below 1000, and reading the text as a decimal
    numeral gives the index back: leading zeros do not change the value. *)
Theorem format_03d_reads_back (i : Z) :
  0 <= i ->
  parse_decimal (format_03d i) = Some (Z.to_N i) /\
  (3 <= String.length (format_03d i))%nat /\
  (i < 1000 -> String.length (format_03d i) = 3%nat).
Proof.
  intros Hi. split; [|split].
  - unfold parse_decimal, format_03d. rewrite (proj2 (Z.ltb_ge i 0)) by done.
    unfold zero_pad, decimal. rewrite uint_of_zeros, NilEmpty.usu. simpl.
    by rewrite DecimalN.Unsigned.of_to.
  - unfold format_03d. rewrite (proj2 (Z.ltb_ge i 0)) by done.
    unfold zero_pad. rewrite length_zeros_append. lia.
  - intros Hlt. rewrite <- (Z2Nat.id i) by done. apply format_03d_small. lia.
Qed.

Lemma format_03d_reads_back_witness :
  parse_decimal (format_03d 42) = Some (Z.to_N 42) /\
  (3 <= String.length (format_03d 42))%nat /\
  (42 < 1000 -> String.length (format_03d 42) = 3%nat).
Proof. apply (format_03d_reads_back 42). lia. Defined.

(** ** Loading: unreadable files are skipped *)

Lemma union_columns_nil acc : union_columns acc [] = acc.
Proof. reflexivity. Qed.

Lemma concat_header_skip (dfs : list DataFrame) acc :
  fold_left union_columns
    (map columns (List.filter (fun df => negb (bool_decide (columns df = []))) dfs)) acc =
  fold_left union_columns (map columns dfs) acc.
Proof.
  revert acc. induction dfs as [|df dfs IH]; intros acc; simpl; [done|].
  case_bool_decide as Hc; simpl.
  - rewrite Hc. simpl. apply IH.
  - apply IH.
Qed.

Lemma mmap_load_data w files st :
  mmap (load_data w) files st =
  (Ok (map (loaded_frame w) files),
   mkState (heap st) (next_loc st) (trace st ++ load_errors w files)).
Proof.
  revert st. induction files as [|p files IH]; intros st; simpl.
  - unfold mret. rewrite app_nil_r. by destruct st.
  - unfold mbind. rewrite load_data_cases. unfold loaded_frame at 1.
    destruct (read_csv w p) as [df|e]; rewrite IH; simpl.
    + done.
    + by rewrite <- app_assoc.
Qed.

Lemma concat_nonempty dfs :
  dfs <> [] ->
  concat dfs =
  Ok {| columns := fold_left union_columns (map columns dfs) [];
        rows := flat_map (fun df => map (reindex_row (columns df)) (rows df)) dfs |}.
Proof. by destruct dfs. Qed.

Lemma header_loaded_readable w files acc :
  fold_left union_columns (map columns (map (loaded_frame w) files)) acc =
  fold_left union_columns (map columns (readable_frames w files)) acc.
Proof.
  revert acc. induction files as [|p files IH]; intros acc; [done|].
  unfold readable_frames, loaded_frame in *. simpl.
  destruct (read_csv w p); simpl; apply IH.
Qed.

Lemma rows_loaded_readable w files :
  flat_map (fun df => map (reindex_row (columns df)) (rows df))
    (map (loaded_frame w) files) =
  flat_map (fun df => map (reindex_row (columns df)) (rows df))
    (readable_frames w files).
Proof.
  induction files as [|p files IH]; [done|].
  unfold readable_frames, loaded_frame in *. simpl.
  destruct (read_csv w p); simpl; by rewrite IH.
Qed.

Lemma concat_loaded_readable w files :
  readable_frames w files <> [] ->
  concat (map (loaded_frame w) files) = concat (readable_frames w files).
Proof.
  intros Hne. rewrite !concat_nonempty; [|done|].
  - by rewrite header_loaded_readable, rows_loaded_readable.
  - destruct files; [done | discriminate].
Qed.

Lemma union_columns_In c acc cs :
  c ∈ union_columns acc cs <-> c ∈ acc \/ c ∈ cs.
Proof.
  revert acc. induction cs as [|x cs IH]; intros acc; simpl.
  - rewrite elem_of_nil. tauto.
  - case_bool_decide as Hx; rewrite IH.
    + rewrite elem_of_cons. split; [tauto|]. intros [? | [-> | ?]]; tauto.
    + rewrite elem_of_app, !elem_of_cons, elem_of_nil. tauto.
Qed.

Lemma header_fold_In c hs acc :
  c ∈ fold_left union_columns hs acc <-> c ∈ acc \/ exists h, In h hs /\ c ∈ h.
Proof.
  revert acc. induction hs as [|h hs IH]; intros acc; simpl.
  - split; [tauto|]. intros [? | (h & [] & _)]. done.
  - rewrite IH, union_columns_In. split.
    + intros [[? | ?] | (h' & ? & ?)]; eauto.
    + intros [? | (h' & [<- | ?] & ?)]; eauto.
Qed.

Lemma stacked_length dfs :
  length (flat_map (fun df => map (reindex_row (columns df)) (rows df)) dfs) =
  list_sum (map len dfs).
Proof.
  induction dfs as [|df dfs IH]; simpl; [done|].
  by rewrite length_app, length_map, IH.
Qed.

(** X14. With at least one CSV file in the folder, loading never fails: a
    file that cannot be read leaves one error line in the log and adds
    neither rows nor columns.  The loaded collection has the rows of the
    readable files stacked and the union of their headers; it is what
    [concat] gives on the readable frames alone. *)
Theorem load_all_data_skips_unreadable (w : World) (config : AnalysisConfig)
    (st : State) :
  let files := glob_csv w (data_folder config) in
  files <> [] ->
  exists all_data st',
    _load_all_data w config st = (Ok all_data, st') /\
    trace st' = trace st ++ load_errors w files /\
    heap st' = heap st /\
    len all_data = list_sum (map len (readable_frames w files)) /\
    (forall c, c ∈ columns all_data <->
       exists df, In df (readable_frames w files) /\ c ∈ columns df) /\
    (readable_frames w files <> [] -> concat (readable_frames w files) = Ok all_data).
Proof.
  intros files Hne. unfold _load_all_data. fold files.
  destruct files as [|p fs] eqn:Ef; [done|]. rewrite <- Ef. clear Hne.
  unfold mbind. rewrite mmap_load_data. unfold lift.
  assert (Hne : files <> []) by (rewrite Ef; done).
  rewrite concat_nonempty by (rewrite Ef; done).
  eexists _, _. split; [reflexivity|]. cbn [trace heap].
  split; [done|]. split; [done|]. split; [|split].
  - unfold len. cbn [rows]. by rewrite rows_loaded_readable, stacked_length.
  - intros c. cbn [columns]. rewrite header_loaded_readable, header_fold_In.
    rewrite elem_of_nil. split.
    + intros [[] | (h & Hh & Hc)]. apply in_map_iff in Hh as (df & <- & Hdf). eauto.
    + intros (df & Hdf & Hc). right. exists (columns df). split; [|done].
      apply in_map_iff. eauto.
  - intros Hr. rewrite (concat_nonempty _ Hr).
    by rewrite header_loaded_readable, rows_loaded_readable.
Qed.

Lemma load_all_data_skips_unreadable_witness :
  exists all_data st',
    _load_all_data two_file_world (mkConfig "data" "out" false) initial_state =
      (Ok all_data, st') /\
    len all_data = 2%nat /\
    trace st' =
      [LogError ("🚨 Transmission interrupted. Error decoding file data/corrupt.csv: "
                 +:+ "Error tokenizing data")].
Proof.
  destruct (load_all_data_skips_unreadable two_file_world (mkConfig "data" "out" false)
              initial_state) as (all_data & st' & Hload & Htrace & _ & Hlen & _).
  { simpl. discriminate. }
  exists all_data, st'. split; [exact Hload|]. split; [exact Hlen | exact Htrace].
Defined.

(** ** Calls and files along a successful run *)

Lemma calls_app t1 t2 : calls (t1 ++ t2) = calls t1 ++ calls t2.
Proof. unfold calls. apply flat_map_app. Qed.

Lemma saved_app t1 t2 : saved (t1 ++ t2) = saved t1 ++ saved t2.
Proof. unfold saved. apply flat_map_app. Qed.

Lemma on_success_mret {A} (a : A) : on_success (mret a) [] [].
Proof. intros st a' st' [= <- <-]. by rewrite !app_nil_r. Qed.

Lemma on_success_raise {A} e : on_success (@raise A e) [] [].
Proof. intros st a st' [=]. Qed.

Lemma on_success_lift {A} (r : Result A) : on_success (lift r) [] [].
Proof. intros st a st' [= _ <-]. by rewrite !app_nil_r. Qed.

Lemma on_success_load ref : on_success (load ref) [] [].
Proof.
  intros st a st'. unfold load. destruct (heap st !! ref); intros [= _ <-].
  by rewrite !app_nil_r.
Qed.

Lemma on_success_store ref o : on_success (store ref o) [] [].
Proof. intros st a st' [= _ <-]. simpl. by rewrite !app_nil_r. Qed.

Lemma on_success_alloc o : on_success (alloc o) [] [].
Proof. intros st a st' [= _ <-]. simpl. by rewrite !app_nil_r. Qed.

Lemma on_success_emit ev :
  on_success (emit ev)
    (match ev with Call f => [f] | _ => [] end)
    (match ev with Saved p => [p] | _ => [] end).
Proof.
  intros st a st' [= _ <-]. simpl. rewrite calls_app, saved_app. simpl.
  by rewrite !app_nil_r.
Qed.

Lemma on_success_mbind {A B} (m : M A) (k : A -> M B) cs1 ps1 cs2 ps2 :
  on_success m cs1 ps1 -> (forall a, on_success (k a) cs2 ps2) ->
  on_success (mbind m k) (cs1 ++ cs2) (ps1 ++ ps2).
Proof.
  intros Hm Hk st b st'. unfold mbind.
  destruct (m st) as [[a|e] st1] eqn:E; [|discriminate].
  intros Hkb. destruct (Hm _ _ _ E) as [Hc1 Hp1]. destruct (Hk a _ _ _ Hkb) as [Hc2 Hp2].
  by rewrite Hc2, Hp2, Hc1, Hp1, !app_assoc.
Qed.

Lemma on_success_silent_bind {A B} (m : M A) (k : A -> M B) cs ps :
  on_success m [] [] -> (forall a, on_success (k a) cs ps) ->
  on_success (mbind m k) cs ps.
Proof. intros Hm Hk. by apply (on_success_mbind m k [] [] cs ps). Qed.

Lemma on_success_bind_silent {A B} (m : M A) (k : A -> M B) cs ps :
  on_success m cs ps -> (forall a, on_success (k a) [] []) ->
  on_success (mbind m k) cs ps.
Proof.
  intros Hm Hk. pose proof (on_success_mbind m k cs ps [] [] Hm Hk) as H.
  by rewrite !app_nil_r in H.
Qed.

Lemma on_success_mfor {A} (f : A -> M unit) (l : list A) :
  (forall x, on_success (f x) [] []) -> on_success (mfor f l) [] [].
Proof.
  intros Hf. induction l as [|x l IH]; simpl; [apply on_success_mret|].
  apply on_success_silent_bind; [apply Hf | by intros _].
Qed.

Lemma on_success_load_performance ref : on_success (load_performance ref) [] [].
Proof.
  apply on_success_silent_bind; [apply on_success_load|].
  intros [p|d]; [apply on_success_mret | apply on_success_raise].
Qed.

Lemma on_success_load_daily ref : on_success (load_daily ref) [] [].
Proof.
  apply on_success_silent_bind; [apply on_success_load|].
  intros [p|d]; [apply on_success_raise | apply on_success_mret].
Qed.

Lemma on_success_log text : on_success (emit (LogInfo text)) [] [].
Proof. apply (on_success_emit (LogInfo text)). Qed.

Lemma on_success_draw d : on_success (emit (Draw d)) [] [].
Proof. apply (on_success_emit (Draw d)). Qed.

Lemma on_success_saved p : on_success (emit (Saved p)) [] [p].
Proof. apply (on_success_emit (Saved p)). Qed.

Lemma on_success_call f : on_success (emit (Call f)) [f] [].
Proof. apply (on_success_emit (Call f)). Qed.

Lemma on_success_save_and_log w path text :
  on_success (lift (savefig w path) ;;; emit (Saved path) ;;; emit (LogInfo text))%py
    [] [path].
Proof.
  apply on_success_silent_bind; [apply on_success_lift | intros _].
  apply on_success_bind_silent; [apply on_success_saved | intros _; apply on_success_log].
Qed.

Lemma on_success_revenue_bar_chart w revenue_data output_path :
  on_success (_create_revenue_bar_chart w revenue_data output_path) [] [output_path].
Proof.
  unfold _create_revenue_bar_chart.
  apply on_success_silent_bind; [apply on_success_draw | intros _].
  apply on_success_silent_bind; [|intros _; apply on_success_save_and_log].
  apply on_success_mfor. intros [i v]. apply on_success_draw.
Qed.

Lemma on_success_ctr_conversion_scatter w ctr_data conversion_rate_data output_path :
  on_success (_create_ctr_conversion_scatter w ctr_data conversion_rate_data output_path)
    [] [output_path].
Proof.
  unfold _create_ctr_conversion_scatter.
  apply on_success_silent_bind; [apply on_success_draw | intros _].
  apply on_success_silent_bind; [|intros _; apply on_success_save_and_log].
  apply on_success_mfor. intros [campaign v].
  apply on_success_silent_bind; [apply on_success_lift | intros x; apply on_success_draw].
Qed.

Lemma on_success_create_performance_charts w performance_data output_folder :
  on_success (create_performance_charts w performance_data output_folder)
    ["create_performance_charts"; "set_style"]
    [path_join output_folder "revenue_performance.png";
     path_join output_folder "ctr_vs_conversion.png"].
Proof.
  unfold create_performance_charts.
  apply (on_success_mbind _ _ ["create_performance_charts"] [] ["set_style"] [_; _]);
    [apply on_success_call | intros _].
  apply (on_success_mbind _ _ ["set_style"] [] [] [_; _]);
    [apply on_success_call | intros _].
  apply on_success_silent_bind; [apply on_success_load_performance | intros p].
  apply (on_success_mbind _ _ [] [_] [] [_]);
    [apply on_success_revenue_bar_chart | intros _].
  apply on_success_silent_bind; [apply on_success_load_performance | intros p'].
  apply on_success_ctr_conversion_scatter.
Qed.

Lemma on_success_convert_dates w performance_data :
  on_success (convert_dates w performance_data) [] [].
Proof.
  unfold convert_dates.
  apply on_success_silent_bind; [apply on_success_load_daily | intros df].
  apply on_success_silent_bind; [apply on_success_lift | intros _].
  apply on_success_silent_bind; [apply on_success_lift | intros dates].
  apply on_success_store.
Qed.

Lemma on_success_plot_platform_lines w performance_data output_path :
  on_success (plot_platform_lines w performance_data output_path) [] [output_path].
Proof.
  unfold plot_platform_lines.
  apply on_success_silent_bind; [|intros _; apply on_success_save_and_log].
  apply on_success_mfor. intros metric.
  apply on_success_silent_bind; [apply on_success_load_daily | intros df].
  apply on_success_silent_bind; [apply on_success_lift | intros _].
  apply on_success_mfor. intros platform.
  apply on_success_silent_bind; [apply on_success_load_daily | intros df'].
  apply on_success_silent_bind; [apply on_success_lift | intros _].
  apply on_success_silent_bind; [apply on_success_lift | intros _].
  apply on_success_draw.
Qed.

Lemma on_success_create_platform_comparison w performance_data output_path :
  on_success (create_platform_comparison w performance_data output_path)
    ["create_platform_comparison"] [output_path].
Proof.
  unfold create_platform_comparison.
  apply (on_success_mbind _ _ [_] [] [] [_]); [apply on_success_call | intros _].
  apply on_success_silent_bind; [apply on_success_convert_dates | intros _].
  apply on_success_plot_platform_lines.
Qed.

Lemma calls_load_errors w files : calls (load_errors w files) = [].
Proof.
  induction files as [|q l IH]; [done|].
  unfold load_errors in *. simpl. destruct (read_csv w q); simpl; [done | exact IH].
Qed.

Lemma saved_load_errors w files : saved (load_errors w files) = [].
Proof.
  induction files as [|q l IH]; [done|].
  unfold load_errors in *. simpl. destruct (read_csv w q); simpl; [done | exact IH].
Qed.

Lemma on_success_load_all_data w config : on_success (_load_all_data w config) [] [].
Proof.
  intros st a st' H. unfold _load_all_data in H.
  destruct (glob_csv w (data_folder config)) as [|p fs]; [discriminate|].
  unfold mbind in H. rewrite mmap_load_data in H. unfold lift in H.
  destruct (concat _); [|discriminate]. injection H as _ <-.
  change (calls (trace st ++ load_errors w (p :: fs)) = calls (trace st) ++ [] /\
          saved (trace st ++ load_errors w (p :: fs)) = saved (trace st) ++ []).
  by rewrite calls_app, saved_app, calls_load_errors, saved_load_errors.
Qed.

Lemma on_success_print_top_campaigns revenue_data top_n :
  on_success (_print_top_campaigns revenue_data top_n) [] [].
Proof.
  unfold _print_top_campaigns.
  apply on_success_silent_bind; [apply on_success_log | intros _].
  apply on_success_mfor. intros [c v]. apply (on_success_emit (LogCampaign c v)).
Qed.

(** X15. A run that returns has called each of the two aggregations and
    each of the two chart functions once, in this order, and has written
    exactly three files into the output folder: the revenue chart, the
    CTR-conversion chart and the platform comparison. *)
Theorem run_analysis_calls_and_files (w : World) (config : AnalysisConfig)
    (st st' : State) :
  run_analysis w config st = (Ok tt, st') ->
  calls (trace st') =
    calls (trace st) ++
    ["analyze_campaign_performance"; "analyze_platform_performance";
     "create_performance_charts"; "set_style"; "create_platform_comparison"] /\
  saved (trace st') =
    saved (trace st) ++
    [path_join (output_folder config) "revenue_performance.png";
     path_join (output_folder config) "ctr_vs_conversion.png";
     path_join (output_folder config) "platform_comparison.png"].
Proof.
  unfold run_analysis, try_except.
  match goal with |- context [match ?body st with _ => _ end] =>
    assert (Hbody : on_success body
      ["analyze_campaign_performance"; "analyze_platform_performance";
       "create_performance_charts"; "set_style"; "create_platform_comparison"]
      [path_join (output_folder config) "revenue_performance.png";
       path_join (output_folder config) "ctr_vs_conversion.png";
       path_join (output_folder config) "platform_comparison.png"]);
    [|destruct (body st) as [[[]|e] st1] eqn:E]
  end.
  - apply on_success_silent_bind; [apply on_success_load_all_data | intros all_data].
    apply on_success_silent_bind;
      [destruct (empty all_data); [apply on_success_raise | apply on_success_mret]
      | intros _].
    apply (on_success_mbind _ _ [_] [] [_; _; _; _] [_; _; _]);
      [apply on_success_call | intros _].
    apply on_success_silent_bind; [apply on_success_lift | intros p].
    apply on_success_silent_bind; [apply on_success_alloc | intros performance_data].
    apply (on_success_mbind _ _ [_] [] [_; _; _] [_; _; _]);
      [apply on_success_call | intros _].
    apply on_success_silent_bind; [apply on_success_lift | intros d].
    apply on_success_silent_bind; [apply on_success_alloc | intros platform_performance].
    apply on_success_silent_bind; [apply on_success_lift | intros _].
    apply (on_success_mbind _ _ [_; _] [_; _] [_] [_]);
      [apply on_success_create_performance_charts | intros _].
    apply on_success_bind_silent;
      [apply on_success_create_platform_comparison | intros _].
    apply on_success_silent_bind; [apply on_success_load_performance | intros p'].
    apply on_success_print_top_campaigns.
  - intros [= <-]. by apply (Hbody _ _ _ E).
  - unfold mbind, emit, raise. simpl. discriminate.
Qed.

Lemma run_analysis_calls_and_files_witness :
  exists st',
    run_analysis sample_world sample_config initial_state = (Ok tt, st') /\
    saved (trace st') =
      ["out/revenue_performance.png"; "out/ctr_vs_conversion.png";
       "out/platform_comparison.png"].
Proof.
  assert (H : exists st', run_analysis sample_world sample_config initial_state = (Ok tt, st'))
    by (eexists; vm_compute; reflexivity).
  destruct H as (st' & H). exists st'. split; [exact H|].
  exact (proj2 (run_analysis_calls_and_files sample_world sample_config initial_state st' H)).
Defined.

(** ** Runs that fail in the aggregations *)

Lemma run_analysis_after_load w config st all_data st1 :
  _load_all_data w config st = (Ok all_data, st1) -> empty all_data = false ->
  run_analysis w config st =
  try_except
    (emit (Call "analyze_campaign_performance") ;;;
     p <- lift (analyze_campaign_performance all_data) ;;
     performance_data <- alloc (PerformanceDict p) ;;
     emit (Call "analyze_platform_performance") ;;;
     d <- lift (analyze_platform_performance all_data) ;;
     platform_performance <- alloc (DailyFrame d) ;;
     _create_output_folder w config ;;;
     create_performance_charts w performance_data (output_folder config) ;;;
     create_platform_comparison w platform_performance
       (path_join (output_folder config) "platform_comparison.png") ;;;
     p' <- load_performance performance_data ;;
     _print_top_campaigns (revenue p') 3)%py
    (fun e =>
       (emit (LogError ("🌑 The dark side clouds everything. Analysis failed: "
                        +:+ str e)) ;;;
        raise e)%py) st1.
Proof.
  intros Hload Hempty. unfold run_analysis, try_except.
  unfold mbind at 1. rewrite Hload. unfold mbind at 1. rewrite Hempty. reflexivity.
Qed.

(** X16. When the loaded collection has rows but lacks a required column,
    the run stops in the schema check: the campaign aggregation is the only
    function called, no object is created, the [ValueError] that lists the
    lacking columns is logged and raised. *)
Theorem run_analysis_schema_failure (w : World) (config : AnalysisConfig)
    (st st1 : State) (all_data : DataFrame) :
  _load_all_data w config st = (Ok all_data, st1) ->
  empty all_data = false ->
  (exists c, c ∈ required_columns /\ c ∉ columns all_data) ->
  exists names,
    run_analysis w config st =
      (Raise (mkExc ValueError (missing_message names)),
       mkState (heap st1) (next_loc st1)
         (trace st1 ++
          [Call "analyze_campaign_performance";
           LogError ("🌑 The dark side clouds everything. Analysis failed: "
                     +:+ missing_message names)])) /\
    NoDup names /\
    forall c, c ∈ names <-> c ∈ required_columns /\ c ∉ columns all_data.
Proof.
  intros Hload Hempty (c & Hreq & Hmiss).
  exists (elements (missing_columns all_data)). split; [|split].
  - rewrite (run_analysis_after_load _ _ _ _ _ Hload Hempty).
    unfold try_except, mbind at 1. cbn [emit]. unfold mbind at 1, lift.
    unfold analyze_campaign_performance. rewrite bool_decide_eq_false_2.
    + cbn. by rewrite <- app_assoc.
    + intros Hsub. apply Hmiss. apply Hsub in Hreq. by apply elem_of_list_to_set in Hreq.
  - apply NoDup_elements.
  - intros c'. rewrite elem_of_elements. unfold missing_columns.
    rewrite elem_of_difference, elem_of_list_to_set. done.
Qed.

Lemma run_analysis_schema_failure_witness :
  exists names,
    fst (run_analysis no_clicks_world (mkConfig "data" "out" false) initial_state) =
      Raise (mkExc ValueError (missing_message names)) /\
    "Clicks" ∈ names.
Proof.
  assert (Hload : exists all_data st1,
            _load_all_data no_clicks_world (mkConfig "data" "out" false) initial_state =
              (Ok all_data, st1) /\
            columns all_data = ["Date"; "Campaign"; "Platform"; "Engagement_Rate";
                                "Impressions"; "Conversions"; "Revenue"] /\
            empty all_data = false)
    by (eexists _, _; split; [vm_compute; reflexivity | split; reflexivity]).
  destruct Hload as (all_data & st1 & Hload & Hcols & Hempty).
  assert (Hmiss : ("Clicks" ∈ required_columns) /\ ("Clicks" ∉ columns all_data)).
  { rewrite Hcols. split.
    - apply (bool_decide_eq_true_1 _). vm_compute. reflexivity.
    - apply (bool_decide_eq_false_1 _). vm_compute. reflexivity. }
  destruct (run_analysis_schema_failure no_clicks_world (mkConfig "data" "out" false)
              initial_state st1 all_data Hload Hempty) as (names & Hrun & _ & Hnames).
  { exists "Clicks". exact Hmiss. }
  exists names. split.
  - rewrite Hrun. reflexivity.
  - apply Hnames. exact Hmiss.
Defined.

(** X17. A collection with rows and the seven required columns but without
    Date passes the schema check and fails one step later: the campaign
    metrics are computed and stored, the platform aggregation raises
    [KeyError] on Date, no chart function is called, and the run logs and
    raises that error. *)
Theorem run_analysis_without_date (w : World) (config : AnalysisConfig)
    (st st1 : State) (all_data : DataFrame) :
  _load_all_data w config st = (Ok all_data, st1) ->
  empty all_data = false ->
  (forall c, c ∈ required_columns -> c ∈ columns all_data) ->
  "Date" ∉ columns all_data ->
  exists perf,
    analyze_campaign_performance all_data = Ok perf /\
    run_analysis w config st =
      (Raise (mkExc KeyError "Date"),
       mkState (<[next_loc st1 := PerformanceDict perf]> (heap st1)) (S (next_loc st1))
         (trace st1 ++
          [Call "analyze_campaign_performance"; Call "analyze_platform_performance";
           LogError "🌑 The dark side clouds everything. Analysis failed: 'Date'"])).
Proof.
  intros Hload Hempty Hreq Hdate.
  assert (Hhas : has_required_columns all_data).
  { intros c Hc. apply elem_of_list_to_set. by apply Hreq. }
  eexists. split; [by apply analyze_campaign_performance_ok|].
  rewrite (run_analysis_after_load _ _ _ _ _ Hload Hempty).
  unfold try_except, mbind at 1. cbn [emit]. unfold mbind at 1, lift.
  rewrite (analyze_campaign_performance_ok _ Hhas).
  unfold mbind at 1. cbn [alloc heap next_loc trace]. unfold mbind at 1. cbn [emit heap next_loc trace].
  unfold mbind at 1.
  replace (analyze_platform_performance all_data) with
    (@Raise Daily.Frame (mkExc KeyError "Date")).
  - cbn. by rewrite <- !app_assoc.
  - unfold analyze_platform_performance, require_key.
    by rewrite (has_column_false _ _ Hdate).
Qed.

Lemma run_analysis_without_date_witness :
  fst (run_analysis no_date_world (mkConfig "data" "out" false) initial_state) =
    Raise (mkExc KeyError "Date").
Proof.
  assert (Hload : exists st1,
            _load_all_data no_date_world (mkConfig "data" "out" false) initial_state =
              (Ok frame_without_date, st1))
    by (eexists; vm_compute; reflexivity).
  destruct Hload as (st1 & Hload).
  destruct (run_analysis_without_date no_date_world (mkConfig "data" "out" false)
              initial_state st1 frame_without_date Hload) as (perf & _ & Hrun).
  - reflexivity.
  - intros c Hc. apply (bool_decide_eq_true_1 _). apply required_columns_spec in Hc.
    repeat (apply elem_of_cons in Hc as [-> | Hc]; [vm_compute; reflexivity|]).
    by apply elem_of_nil in Hc.
  - apply (bool_decide_eq_false_1 _). vm_compute. reflexivity.
  - by rewrite Hrun.
Defined.

(** ** The report of the top campaigns *)

Lemma mfor_emit {A} (ev : A -> Event) (l : list A) st :
  mfor (fun x => emit (ev x)) l st =
  (Ok tt, mkState (heap st) (next_loc st) (trace st ++ map ev l)).
Proof.
  revert st. induction l as [|x l IH]; intros st; simpl.
  - unfold mret. rewrite app_nil_r. by destruct st.
  - unfold mbind, emit at 1. rewrite IH. simpl. by rewrite <- app_assoc.
Qed.

Lemma mfor_ext {A} (f g : A -> M unit) (l : list A) :
  (forall x, f x = g x) -> mfor f l = mfor g l.
Proof.
  intros Hfg. induction l as [|x l IH]; simpl; [done|]. by rewrite Hfg, IH.
Qed.

Lemma skipn_In {A} (n : nat) (l : list A) (y : A) : In y (skipn n l) -> In y l.
Proof.
  revert l. induction n as [|n IH]; intros l; [done|].
  destruct l as [|a l]; [done|]. simpl. intros H. right. by apply IH.
Qed.

Lemma StronglySorted_firstn_skipn {A} (R : A -> A -> Prop) (n : nat) (l : list A) :
  StronglySorted R l -> forall x y, In x (firstn n l) -> In y (skipn n l) -> R x y.
Proof.
  intros Hs. revert n. induction Hs as [|a l Hl IH Ha]; intros n x y Hx Hy.
  - by rewrite firstn_nil in Hx.
  - destruct n as [|n]; [done|]. simpl in Hx, Hy. destruct Hx as [<- | Hx].
    + rewrite Forall_forall in Ha. apply Ha, list_elem_of_In.
      by apply (skipn_In n).
    + by apply (IH n).
Qed.

Lemma revenue_strongly_sorted (s : Series string Q) :
  StronglySorted revenue_desc (sort_values_desc Q_geb (fun _ => false) s).
Proof.
  apply Sorted_StronglySorted; [|apply revenue_sorted].
  intros a b c Hab Hbc. unfold revenue_desc in *. by eapply Qle_trans.
Qed.

(** X18. The report of the top campaigns writes a heading and then one line
    per campaign for the first [top_n] entries of the revenue series, fewer
    when there are fewer campaigns, in the order of the series.  On the
    series of the campaign aggregation these are the campaigns with the
    largest totals: no campaign that is left out has a larger total than
    one that is listed. *)
Theorem top_campaigns_report (df : DataFrame) (perf : PerformanceData)
    (top_n : nat) (st : State) :
  analyze_campaign_performance df = Ok perf ->
  let listed := firstn top_n (revenue perf) in
  _print_top_campaigns (revenue perf) top_n st =
    (Ok tt,
     mkState (heap st) (next_loc st)
       (trace st ++
        LogInfo ("🥇 Top " +:+ decimal (N.of_nat top_n) +:+ " Campaigns by Revenue:")
        :: campaign_lines listed)) /\
  length listed = Nat.min top_n (length (revenue perf)) /\
  dominates Qle listed (skipn top_n (revenue perf)).
Proof.
  intros Hok listed. split; [|split].
  - unfold _print_top_campaigns, mbind, emit at 1. cbn [heap next_loc trace].
    rewrite (mfor_ext _ (fun x => emit (let '(campaign, revenue) := x in
                                        LogCampaign campaign revenue)))
      by (by intros []).
    rewrite mfor_emit. cbn [heap next_loc trace]. by rewrite <- app_assoc.
  - apply length_firstn.
  - pose proof (analyze_campaign_performance_Ok_inv _ _ Hok) as Hreq.
    rewrite (analyze_campaign_performance_ok _ Hreq) in Hok. injection Hok as <-.
    intros c v c' v' Hin Hin'.
    apply (StronglySorted_firstn_skipn revenue_desc top_n _
             (revenue_strongly_sorted _) (c, v) (c', v') Hin Hin').
Qed.

Lemma top_campaigns_report_witness :
  _print_top_campaigns (revenue test_performance) 1 initial_state =
    (Ok tt,
     mkState ∅ 0%nat
       [LogInfo "🥇 Top 1 Campaigns by Revenue:"; LogCampaign "B" (1000 # 1)%Q]) /\
  dominates Qle [("B", (1000 # 1)%Q)] [("A", (500 # 1)%Q)].
Proof.
  destruct (top_campaigns_report test_dataframe test_performance 1 initial_state)
    as (Hrun & _ & Hdom).
  - vm_compute. reflexivity.
  - split; [exact Hrun | exact Hdom].
Defined.

(** ** The campaign charts on the output of the aggregation *)

Lemma series_get_index {V} (k : string) (s : Series string V) :
  In k (index s) -> exists v, series_get String.compare k s = Some v.
Proof.
  induction s as [|[k' v'] s IH]; simpl; [done|].
  intros [-> | Hin].
  - exists v'. by rewrite (proj2 (string_compare_eq k k) eq_refl).
  - destruct (String.compare k k'); eauto.
Qed.

Lemma firstn_In {A} (n : nat) (l : list A) (x : A) : In x (firstn n l) -> In x l.
Proof.
  revert l. induction n as [|n IH]; intros l; [done|].
  destruct l as [|a l]; [done|]. simpl. intros [-> | H]; [by left | right; by apply IH].
Qed.

Lemma nlargest_incl n (s : Series string PyFloat) e :
  In e (nlargest n s) -> In e s /\ snd e <> NaN.
Proof.
  unfold nlargest. intros Hin. apply firstn_In in Hin.
  apply (proj1 (insertion_sort_In float_geb isnan _ _)) in Hin.
  apply filter_In in Hin as [Hin Hnan].
  split; [done|]. intros Heq. rewrite Heq in Hnan. discriminate.
Qed.

(** A loop whose every step returns and leaves the objects alone does so
    as a whole. *)
Lemma mfor_returns {A} (f : A -> M unit) (l : list A) :
  (forall x, In x l -> forall st, exists st',
     f x st = (Ok tt, st') /\ heap st' = heap st) ->
  forall st, exists st', mfor f l st = (Ok tt, st') /\ heap st' = heap st.
Proof.
  induction l as [|x l IH]; intros Hf st; simpl.
  - by exists st.
  - unfold mbind. destruct (Hf x (or_introl eq_refl) st) as (st1 & -> & H1).
    destruct (IH (fun y Hy => Hf y (or_intror Hy)) st1) as (st2 & -> & H2).
    exists st2. split; [done | congruence].
Qed.

Lemma revenue_bar_chart_returns w revenue_data output_path st :
  savefig w output_path = Ok tt ->
  exists st', _create_revenue_bar_chart w revenue_data output_path st = (Ok tt, st') /\
              heap st' = heap st.
Proof.
  intros Hsave. unfold _create_revenue_bar_chart, mbind at 1, emit at 1.
  unfold mbind at 1.
  match goal with |- context [mfor ?f ?l ?s] =>
    destruct (mfor_returns f l) with (st := s) as (st1 & -> & H1) end.
  { intros [i v] _ st0. eexists. split; [reflexivity | done]. }
  unfold mbind, lift. rewrite Hsave. cbn. eexists. split; [reflexivity|].
  simpl in *. exact H1.
Qed.

Lemma ctr_conversion_scatter_returns w (perf : PerformanceData) df output_path st :
  analyze_campaign_performance df = Ok perf ->
  savefig w output_path = Ok tt ->
  exists st',
    _create_ctr_conversion_scatter w (ctr perf) (conversion_rate perf) output_path st =
      (Ok tt, st') /\
    heap st' = heap st.
Proof.
  intros Hok Hsave.
  assert (Hlabels : forall c, In c (index (ctr perf)) -> In c (index (conversion_rate perf))).
  { pose proof (analyze_campaign_performance_Ok_inv _ _ Hok) as Hreq.
    rewrite (analyze_campaign_performance_ok _ Hreq) in Hok. injection Hok as <-.
    cbn [ctr conversion_rate]. intros c Hc.
    apply list_elem_of_In. apply list_elem_of_In in Hc.
    rewrite index_sort_values_desc, index_campaign_ratio in *. done. }
  unfold _create_ctr_conversion_scatter, mbind at 1, emit at 1.
  unfold mbind at 1.
  match goal with |- context [mfor ?f ?l ?s] =>
    destruct (mfor_returns f l) with (st := s) as (st1 & -> & H1) end.
  { intros [campaign v] Hin st0.
    apply nlargest_incl in Hin as [Hin _].
    destruct (series_get_index campaign (conversion_rate perf)) as (v' & Hv').
    { apply Hlabels. unfold index. apply in_map_iff. by exists (campaign, v). }
    unfold mbind, lift, series_getitem. rewrite Hv'. eexists. split; [reflexivity | done]. }
  unfold mbind, lift. rewrite Hsave. cbn. eexists. split; [reflexivity|].
  simpl in *. exact H1.
Qed.



(** ** The platform comparison chart and the frame it is given *)

Lemma to_datetime_column_Forall2 w rs dates :
  to_datetime_column w rs = Ok dates ->
  Forall2 (fun r d => to_datetime w (Daily.Date r) = Ok d) rs dates.
Proof.
  revert dates. induction rs as [|r rs IH]; intros dates; simpl.
  - intros [= <-]. constructor.
  - destruct (to_datetime w (Daily.Date r)) as [d|e] eqn:Ed; [|discriminate]. simpl.
    destruct (to_datetime_column w rs) as [ds|e]; [|discriminate]. simpl.
    intros [= <-]. constructor; [done | by apply IH].
Qed.

Lemma assign_dates_Forall2 w rs dates :
  Forall2 (fun r d => to_datetime w (Daily.Date r) = Ok d) rs dates ->
  Forall2 (fun r r' => to_datetime w (Daily.Date r) = Ok (Daily.Date r') /\
                       r' = Daily.set_Date (fun _ => Daily.Date r') r /\
                       has_timestamp r')
    rs (assign_dates rs dates).
Proof.
  induction 1 as [|r d rs dates Hd _ IH]; simpl; constructor; [|done].
  split; [done|]. split; [done|]. unfold has_timestamp. simpl.
  unfold to_datetime in Hd. destruct (Daily.Date r) as [s|t].
  - destruct (parse_datetime w s); [|discriminate]. injection Hd as <-. eauto.
  - injection Hd as <-. eauto.
Qed.

Lemma convert_then_plot w performance_data output_path df st r st' :
  heap st !! performance_data = Some (DailyFrame df) ->
  create_platform_comparison w performance_data output_path st = (r, st') ->
  (exists e, r = Raise e /\ heap st' = heap st /\
             trace st' = trace st ++ [Call "create_platform_comparison"] /\
             (Daily.getitem "Date" df = Raise e \/
              to_datetime_column w (Daily.rows df) = Raise e)) \/
  (exists dates,
     to_datetime_column w (Daily.rows df) = Ok dates /\
     heap st' =
       <[performance_data :=
           DailyFrame {| Daily.columns := Daily.columns df;
                         Daily.rows := assign_dates (Daily.rows df) dates |}]> (heap st)).
Proof.
  intros Hobj. unfold create_platform_comparison, mbind at 1. simpl.
  unfold mbind at 1, convert_dates, mbind at 1, load_daily, mbind at 1, load. simpl.
  rewrite Hobj. simpl. unfold mbind at 1, lift.
  destruct (Daily.getitem "Date" df) as [[]|e] eqn:Eg.
  2: { intros [= <- <-]. left. exists e. simpl. auto. }
  unfold mbind at 1.
  destruct (to_datetime_column w (Daily.rows df)) as [dates|e] eqn:Ed.
  2: { intros [= <- <-]. left. exists e. simpl. auto. }
  unfold store. intros Hrest. right. exists dates. split; [done|].
  match type of Hrest with plot_platform_lines _ _ _ ?s = _ =>
    pose proof (plot_platform_lines_preserves w performance_data output_path s) as Hp
  end.
  rewrite Hrest in Hp. simpl in Hp. exact Hp.
Qed.

(** X20. When the platform comparison chart returns, the frame it was
    given has the same header and the same rows except for the Date cells,
    which now hold the datetimes of the former cells; every other object is
    as it was. *)
Theorem platform_comparison_changes_only_dates (w : World) (performance_data : loc)
    (output_path : Path) (df : Daily.Frame) (st st' : State) :
  heap st !! performance_data = Some (DailyFrame df) ->
  create_platform_comparison w performance_data output_path st = (Ok tt, st') ->
  exists df',
    heap st' !! performance_data = Some (DailyFrame df') /\
    Daily.columns df' = Daily.columns df /\
    Forall2 (fun r r' => to_datetime w (Daily.Date r) = Ok (Daily.Date r') /\
                         r' = Daily.set_Date (fun _ => Daily.Date r') r /\
                         has_timestamp r')
      (Daily.rows df) (Daily.rows df') /\
    (forall l, l <> performance_data -> heap st' !! l = heap st !! l).
Proof.
  intros Hobj Hrun.
  destruct (convert_then_plot _ _ _ _ _ _ _ Hobj Hrun)
    as [(e & [=] & _) | (dates & Hdates & Hheap)].
  eexists. rewrite Hheap. split; [apply lookup_insert_eq|]. split; [done|]. split.
  - apply (assign_dates_Forall2 w), to_datetime_column_Forall2, Hdates.
  - intros l Hl. by apply lookup_insert_ne.
Qed.

Lemma platform_comparison_changes_only_dates_witness :
  exists df',
    Daily.columns df' = Daily.columns csv_daily /\
    Forall2 (fun r r' => to_datetime sample_world (Daily.Date r) = Ok (Daily.Date r') /\
                         r' = Daily.set_Date (fun _ => Daily.Date r') r /\
                         has_timestamp r')
      (Daily.rows csv_daily) (Daily.rows df').
Proof.
  assert (Hrun : exists st',
            create_platform_comparison sample_world 0%nat "out/platform_comparison.png"
              (mkState {[ 0%nat := DailyFrame csv_daily ]} 1%nat []) = (Ok tt, st'))
    by (eexists; vm_compute; reflexivity).
  destruct Hrun as (st' & Hrun).
  assert (Hobj : heap (mkState {[ 0%nat := DailyFrame csv_daily ]} 1%nat []) !! 0%nat =
                 Some (DailyFrame csv_daily)) by (vm_compute; reflexivity).
  destruct (platform_comparison_changes_only_dates sample_world 0%nat
              "out/platform_comparison.png" csv_daily _ st' Hobj Hrun)
    as (df' & _ & Hc & Hr & _).
  exists df'. split; [exact Hc | exact Hr].
Defined.

Lemma set_Date_same r : Daily.set_Date (fun _ => Daily.Date r) r = r.
Proof. by destruct r. Qed.

Lemma timestamps_convert_to_themselves w rs :
  Forall has_timestamp rs ->
  to_datetime_column w rs = Ok (map Daily.Date rs) /\
  assign_dates rs (map Daily.Date rs) = rs.
Proof.
  induction 1 as [|r rs [t Ht] _ [IH1 IH2]]; simpl; [done|].
  rewrite Ht, IH1. simpl. split; [done|]. rewrite IH2. f_equal.
  rewrite <- Ht. apply set_Date_same.
Qed.

(** X21. On a frame whose dates are datetimes already the platform
    comparison chart changes nothing, whether it returns or raises: drawing
    the chart a second time, or on a frame built with datetimes, leaves
    every object as it was. *)
Theorem platform_comparison_keeps_timestamps (w : World) (performance_data : loc)
    (output_path : Path) (df : Daily.Frame) (st st' : State) (r : Result unit) :
  heap st !! performance_data = Some (DailyFrame df) ->
  Forall has_timestamp (Daily.rows df) ->
  create_platform_comparison w performance_data output_path st = (r, st') ->
  heap st' = heap st.
Proof.
  intros Hobj Hts Hrun.
  destruct (convert_then_plot _ _ _ _ _ _ _ Hobj Hrun)
    as [(e & _ & Hheap & _) | (dates & Hdates & Hheap)]; [done|].
  destruct (timestamps_convert_to_themselves w _ Hts) as [Hcol Hassign].
  rewrite Hcol in Hdates. injection Hdates as <-. rewrite Hheap, Hassign.
  apply insert_id. rewrite Hobj. by destruct df.
Qed.

Lemma platform_comparison_keeps_timestamps_witness :
  heap (snd (create_platform_comparison sample_world 0%nat "out/platform_comparison.png"
               (mkState {[ 0%nat := DailyFrame timestamp_daily ]} 1%nat []))) =
  heap (mkState {[ 0%nat := DailyFrame timestamp_daily ]} 1%nat []).
Proof.
  assert (Hobj : heap (mkState {[ 0%nat := DailyFrame timestamp_daily ]} 1%nat []) !! 0%nat =
                 Some (DailyFrame timestamp_daily)) by (vm_compute; reflexivity).
  assert (Hts : Forall has_timestamp (Daily.rows timestamp_daily))
    by (repeat constructor; eexists; reflexivity).
  exact (platform_comparison_keeps_timestamps sample_world 0%nat
           "out/platform_comparison.png" timestamp_daily _ _ _ Hobj Hts
           (surjective_pairing _)).
Defined.

Lemma to_datetime_column_fails w rs :
  (exists r s, In r rs /\ Daily.Date r = DateStr s /\ parse_datetime w s = None) ->
  exists e, to_datetime_column w rs = Raise e /\ exc_class e = ValueError.
Proof.
  intros (r & s & Hin & Hd & Hp). induction rs as [|r0 rs IH]; [done|]. simpl.
  destruct (to_datetime w (Daily.Date r0)) as [d|e] eqn:E; simpl.
  - destruct Hin as [-> | Hin].
    + unfold to_datetime in E. rewrite Hd, Hp in E. discriminate.
    + destruct (IH Hin) as (e & -> & He). simpl. eauto.
  - exists e. split; [done|]. unfold to_datetime in E.
    destruct (Daily.Date r0) as [s0|t0]; [|discriminate].
    destruct (parse_datetime w s0); [discriminate|]. by injection E as <-.
Qed.

(** X22. When a date of the frame is text that cannot be parsed, the
    platform comparison chart raises a [ValueError] before it assigns the
    column: the frame and every other object are unchanged, nothing is
    drawn and no file is written. *)
Theorem platform_comparison_unparseable_date (w : World) (performance_data : loc)
    (output_path : Path) (df : Daily.Frame) (st : State) :
  heap st !! performance_data = Some (DailyFrame df) ->
  "Date" ∈ Daily.columns df ->
  (exists r s, In r (Daily.rows df) /\ Daily.Date r = DateStr s /\
               parse_datetime w s = None) ->
  exists e,
    create_platform_comparison w performance_data output_path st =
      (Raise e,
       mkState (heap st) (next_loc st) (trace st ++ [Call "create_platform_comparison"])) /\
    exc_class e = ValueError.
Proof.
  intros Hobj Hcol Hbad.
  destruct (to_datetime_column_fails w _ Hbad) as (e & He & Hclass).
  exists e. split; [|done].
  unfold create_platform_comparison, mbind at 1. simpl.
  unfold mbind at 1, convert_dates, mbind at 1, load_daily, mbind at 1, load. simpl.
  rewrite Hobj. simpl. unfold mbind at 1, lift, Daily.getitem, Daily.has_column.
  rewrite bool_decide_eq_true_2 by done. unfold mbind at 1. by rewrite He.
Qed.

Lemma platform_comparison_unparseable_date_witness :
  exists e,
    create_platform_comparison sample_world 0%nat "out/platform_comparison.png"
      (mkState {[ 0%nat := DailyFrame bad_date_daily ]} 1%nat []) =
      (Raise e,
       mkState {[ 0%nat := DailyFrame bad_date_daily ]} 1%nat
         [Call "create_platform_comparison"]) /\
    exc_class e = ValueError.
Proof.
  assert (Hobj : heap (mkState {[ 0%nat := DailyFrame bad_date_daily ]} 1%nat []) !! 0%nat =
                 Some (DailyFrame bad_date_daily)) by (vm_compute; reflexivity).
  assert (Hcol : "Date" ∈ Daily.columns bad_date_daily)
    by (apply (bool_decide_eq_true_1 _); vm_compute; reflexivity).
  assert (Hbad : exists r s, In r (Daily.rows bad_date_daily) /\
                             Daily.Date r = DateStr s /\
                             parse_datetime sample_world s = None).
  { eexists _, "yesterday". split; [right; left; reflexivity|]. split; reflexivity. }
  destruct (platform_comparison_unparseable_date sample_world 0%nat
              "out/platform_comparison.png" bad_date_daily _ Hobj Hcol Hbad)
    as (e & Hrun & Hclass).
  exists e. split; [exact Hrun | exact Hclass].
Defined.

(** ** The campaigns that the scatter chart annotates *)

Lemma nlargest_strongly_sorted (s : Series string PyFloat) :
  StronglySorted (desc float_geb)
    (fold_right (insert_desc float_geb) []
       (List.filter (fun x => negb (isnan (snd x))) s)).
Proof.
  apply Sorted_StronglySorted.
  - intros a b c Hab Hbc. unfold desc in *. apply float_geb_le.
    apply float_geb_le in Hab, Hbc. by eapply float_le_trans.
  - apply (insertion_sort_Sorted_on float_geb (fun v => isnan v = false)).
    + apply float_geb_total.
    + eapply Forall_impl; [apply (filter_Forall (fun x => negb (isnan (snd x))))|].
      intros e He. by apply negb_true_iff in He.
Qed.

